(** * lib/auth/permissions.go: resolving a request's identity into an
    authorization context.

  The file embeds [permissions.go] function by function.  What the Go file
  imports from the packages [teleport] and [services] (types, constants,
  constructors, the three store interfaces) is not part of the file; it is
  taken as the fields of interface classes, [teleport.Package],
  [services.Consts] and [services.Package], and every result below holds
  for each implementation of them.  A small implementation at the end of
  the definitions ([Model]) is used to run the code on concrete
  requests. *)

From stdpp Require Import base strings list gmap.

(** ** github.com/gravitational/trace *)

Module trace.

(** An [error] value.  The three typed errors carry their message;
  [OtherError] stands for any error value of another type; [TraceErr] is
  the wrapper [trace.Wrap] puts around an error to record where it
  passed. *)
Inductive error : Type :=
| AccessDeniedError (Message : string)
| NotFoundError (Message : string)
| BadParameterError (Message : string)
| OtherError (Message : string)
| TraceErr (Err : error).

Definition Wrap (err : error) : error := TraceErr err.

Definition AccessDenied (message : string) : error :=
  Wrap (AccessDeniedError message).

Definition NotFound (message : string) : error :=
  Wrap (NotFoundError message).

Definition BadParameter (message : string) : error :=
  Wrap (BadParameterError message).

(** [trace.Unwrap]: the original error under the wrappers. *)
Fixpoint Unwrap (err : error) : error :=
  match err with
  | TraceErr e => Unwrap e
  | _ => err
  end.

Definition IsAccessDenied (err : error) : bool :=
  match Unwrap err with AccessDeniedError _ => true | _ => false end.

Definition IsNotFound (err : error) : bool :=
  match Unwrap err with NotFoundError _ => true | _ => false end.

Definition IsBadParameter (err : error) : bool :=
  match Unwrap err with BadParameterError _ => true | _ => false end.

End trace.

(** Go's [(value, error)] return pair: [Ok v] is [(v, nil)], [Err e] is
  [(nil, e)]. *)
Inductive result (A : Type) : Type :=
| Ok (value : A)
| Err (err : trace.error).
Arguments Ok {A} value.
Arguments Err {A} err.

(** ** package teleport *)

Module teleport.

(** [teleport.Role] with the eight constants the switch of
  [GetCheckerForBuiltinRole] names, its [String] method, and what
  [fmt]'s [%v] prints for a value of the type. *)
Class Package : Type := {
  Role : Type;
  Role_eq_dec : EqDecision Role;
  RoleAuth : Role;
  RoleProvisionToken : Role;
  RoleNode : Role;
  RoleProxy : Role;
  RoleWeb : Role;
  RoleSignup : Role;
  RoleAdmin : Role;
  RoleNop : Role;
  Role_String : Role -> string;
  Role_Format : Role -> string;
}.
#[global] Existing Instance Role_eq_dec.

(** The identity a request carries under the key [teleport.ContextUser]. *)
Module LocalUser.
Record t : Type := mk { Username : string }.
End LocalUser.

Module RemoteUser.
Record t : Type := mk {
  Username : string;
  ClusterName : string;
  RemoteRoles : list string;
}.
End RemoteUser.

Module BuiltinRole.
Record t `{Package} : Type := mk { Role : teleport.Role }.
End BuiltinRole.

End teleport.

(** ** package context *)

Module context.

(** The [interface{}] that [ctx.Value(teleport.ContextUser)] returns: nil
  when nothing is stored under the key, one of the three identity
  structs, or a value of some other dynamic type (named as [%T] prints
  it). *)
Inductive value `{teleport.Package} : Type :=
| Nil
| LocalUser (u : teleport.LocalUser.t)
| RemoteUser (u : teleport.RemoteUser.t)
| BuiltinRole (r : teleport.BuiltinRole.t)
| Other (dynamic_type : string).

(** A non-nil [context.Context], as far as [Authorize] reads it. *)
Record Context `{teleport.Package} : Type := mk {
  Value_ContextUser : value;
}.

(** [%T] of the stored value. *)
Definition Format_T `{teleport.Package} (v : value) : string :=
  match v with
  | Nil => "<nil>"
  | LocalUser _ => "teleport.LocalUser"
  | RemoteUser _ => "teleport.RemoteUser"
  | BuiltinRole _ => "teleport.BuiltinRole"
  | Other t => t
  end.

End context.

(** ** package services *)

Module services.

(** The constants of the package that the policy table is written with. *)
Class Consts : Type := {
  Wildcard : string;
  KindAuthServer : string;
  KindNode : string;
  KindSession : string;
  KindEvent : string;
  KindProxy : string;
  KindCertAuthority : string;
  KindUser : string;
  KindNamespace : string;
  KindRole : string;
  KindReverseTunnel : string;
  KindOIDCRequest : string;
  KindSAMLRequest : string;
  KindOIDC : string;
  KindSAML : string;
  KindClusterAuthPreference : string;
  KindClusterName : string;
  KindStaticTokens : string;
  KindWebSession : string;
  KindTrustedCluster : string;
  RW : list string;
  RO : list string;
  MaxSessionTTL : string;
  OptionValue : Type;
  MaxDuration : OptionValue;
  CertAuthType : Type;
  UserCA : CertAuthType;
}.

(** Slices and maps of a struct literal: [None] is the nil of a field the
  literal leaves out, [Some] what the literal writes (possibly empty). *)
Record RoleConditions : Type := mkRoleConditions {
  Logins : option (list string);
  Namespaces : option (list string);
  NodeLabels : option (gmap string string);
  Rules : option (gmap string (list string));
}.

Record RoleSpecV3 `{Consts} : Type := mkRoleSpecV3 {
  Options : option (gmap string OptionValue);
  Allow : RoleConditions;
}.

Record CertAuthID `{Consts} : Type := mkCertAuthID {
  Type_ : CertAuthType;
  DomainName : string;
}.

(** [map[string][]string], nil included. *)
Definition Traits : Type := option (gmap string (list string)).

(** The rest of the package: the objects, their getters and constructors,
  and the three stores.  A call into a store runs against the state
  [World] of the collaborators and may change it. *)
Class Package `{Consts} : Type := {
  World : Type;
  User : Type;
  GetName : User -> string;
  GetRoles : User -> list string;
  GetTraits : User -> Traits;
  NewUser : string -> result User;
  AccessChecker : Type;
  FromSpec : string -> RoleSpecV3 -> result AccessChecker;
  Access : Type;
  FetchRoles :
    list string -> Access -> Traits -> World -> result AccessChecker * World;
  Identity : Type;
  GetUser : Identity -> string -> World -> result User * World;
  RoleMap : Type;
  Map : RoleMap -> list string -> result (list string);
  CertAuthority : Type;
  CombinedMapping : CertAuthority -> RoleMap;
  Trust : Type;
  GetCertAuthority :
    Trust -> CertAuthID -> bool -> World -> result CertAuthority * World;
}.

End services.

(** ** package auth: permissions.go *)

Module auth.
Section permissions.
Context `{T : teleport.Package} `{C : services.Consts}
        `{S : !services.Package}.

(** A computation that calls into the stores: it reads and may change the
  collaborators' state, and nothing else. *)
Definition M (A : Type) : Type := services.World -> A * services.World.

#[local] Instance M_ret : MRet M := fun A (a : A) w => (a, w).
#[local] Instance M_bind : MBind M :=
  fun A B (f : A -> M B) (m : M A) w => let '(a, w') := m w in f a w'.

Record AuthContext : Type := mkAuthContext {
  User : services.User;
  Checker : services.AccessChecker;
}.

Record contextAuthorizer : Type := mkContextAuthorizer {
  authContext : AuthContext;
}.

(** The three fields hold non-nil interface values: [NewAuthorizer], the
  only constructor, refuses a nil one. *)
Record authorizer : Type := mkAuthorizer {
  access : services.Access;
  identity : services.Identity;
  trust : services.Trust;
}.

(** The interface [Authorizer] with its two implementations. *)
Inductive Authorizer : Type :=
| authorizer_impl (a : authorizer)
| contextAuthorizer_impl (r : contextAuthorizer).

Definition GetCheckerForBuiltinRole (role : teleport.Role)
  : result services.AccessChecker :=
  if decide (role = teleport.RoleAuth) then
    services.FromSpec (teleport.Role_String role)
      {| services.Options := None;
         services.Allow := {|
           services.Logins := None;
           services.Namespaces := Some [services.Wildcard];
           services.NodeLabels := None;
           services.Rules := Some (list_to_map [
             (services.KindAuthServer, services.RW)]) |} |}
  else if decide (role = teleport.RoleProvisionToken) then
    services.FromSpec (teleport.Role_String role)
      {| services.Options := None;
         services.Allow := {|
           services.Logins := None;
           services.Namespaces := None;
           services.NodeLabels := None;
           services.Rules := None |} |}
  else if decide (role = teleport.RoleNode) then
    services.FromSpec (teleport.Role_String role)
      {| services.Options := None;
         services.Allow := {|
           services.Logins := None;
           services.Namespaces := Some [services.Wildcard];
           services.NodeLabels := None;
           services.Rules := Some (list_to_map [
             (services.KindNode, services.RW);
             (services.KindSession, services.RW);
             (services.KindEvent, services.RW);
             (services.KindProxy, services.RO);
             (services.KindCertAuthority, services.RO);
             (services.KindUser, services.RO);
             (services.KindNamespace, services.RO);
             (services.KindRole, services.RO);
             (services.KindAuthServer, services.RO);
             (services.KindReverseTunnel, services.RO)]) |} |}
  else if decide (role = teleport.RoleProxy) then
    services.FromSpec (teleport.Role_String role)
      {| services.Options := None;
         services.Allow := {|
           services.Logins := None;
           services.Namespaces := Some [services.Wildcard];
           services.NodeLabels := None;
           services.Rules := Some (list_to_map [
             (services.KindProxy, services.RW);
             (services.KindOIDCRequest, services.RW);
             (services.KindSession, services.RW);
             (services.KindEvent, services.RW);
             (services.KindSAMLRequest, services.RW);
             (services.KindOIDC, services.RO);
             (services.KindSAML, services.RO);
             (services.KindNamespace, services.RO);
             (services.KindNode, services.RO);
             (services.KindAuthServer, services.RO);
             (services.KindReverseTunnel, services.RO);
             (services.KindCertAuthority, services.RO);
             (services.KindUser, services.RO);
             (services.KindRole, services.RO);
             (services.KindClusterAuthPreference, services.RO);
             (services.KindClusterName, services.RO);
             (services.KindStaticTokens, services.RO)]) |} |}
  else if decide (role = teleport.RoleWeb) then
    services.FromSpec (teleport.Role_String role)
      {| services.Options := None;
         services.Allow := {|
           services.Logins := None;
           services.Namespaces := Some [services.Wildcard];
           services.NodeLabels := None;
           services.Rules := Some (list_to_map [
             (services.KindWebSession, services.RW);
             (services.KindSession, services.RW);
             (services.KindAuthServer, services.RO);
             (services.KindUser, services.RO);
             (services.KindRole, services.RO);
             (services.KindNamespace, services.RO);
             (services.KindTrustedCluster, services.RO)]) |} |}
  else if decide (role = teleport.RoleSignup) then
    services.FromSpec (teleport.Role_String role)
      {| services.Options := None;
         services.Allow := {|
           services.Logins := None;
           services.Namespaces := Some [services.Wildcard];
           services.NodeLabels := None;
           services.Rules := Some (list_to_map [
             (services.KindAuthServer, services.RO);
             (services.KindClusterAuthPreference, services.RO)]) |} |}
  else if decide (role = teleport.RoleAdmin) then
    services.FromSpec (teleport.Role_String role)
      {| services.Options := Some (list_to_map [
           (services.MaxSessionTTL, services.MaxDuration)]);
         services.Allow := {|
           services.Logins := Some [];
           services.Namespaces := Some [services.Wildcard];
           services.NodeLabels := Some (list_to_map [
             (services.Wildcard, services.Wildcard)]);
           services.Rules := Some (list_to_map [
             (services.Wildcard, services.RW)]) |} |}
  else if decide (role = teleport.RoleNop) then
    services.FromSpec (teleport.Role_String role)
      {| services.Options := None;
         services.Allow := {|
           services.Logins := None;
           services.Namespaces := Some [];
           services.NodeLabels := None;
           services.Rules := Some (list_to_map []) |} |}
  else
    Err (trace.NotFound (teleport.Role_String role +:+ " is not reconginzed")).

Definition contextForBuiltinRole (r : teleport.Role) : result AuthContext :=
  match GetCheckerForBuiltinRole r with
  | Err err => Err (trace.Wrap err)
  | Ok checker =>
    match services.NewUser ("builtin-" +:+ teleport.Role_Format r) with
    | Err err => Err (trace.Wrap err)
    | Ok user => Ok {| User := user; Checker := checker |}
    end
  end.

(** [identity] and [access] are non-nil: calling a method of a nil
  interface panics, which is outside this model. *)
Definition contextForLocalUser (username : string)
    (identity : services.Identity) (access : services.Access)
  : M (result AuthContext) :=
  r ← services.GetUser identity username;
  match r with
  | Err err => mret (Err (trace.Wrap err))
  | Ok user =>
    r ← services.FetchRoles (services.GetRoles user) access
          (services.GetTraits user);
    match r with
    | Err err => mret (Err (trace.Wrap err))
    | Ok checker => mret (Ok {| User := user; Checker := checker |})
    end
  end.

Definition authorizeLocalUser (a : authorizer) (u : teleport.LocalUser.t)
  : M (result AuthContext) :=
  contextForLocalUser (teleport.LocalUser.Username u) (identity a) (access a).

Definition authorizeRemoteUser (a : authorizer) (u : teleport.RemoteUser.t)
  : M (result AuthContext) :=
  r ← services.GetCertAuthority (trust a)
        {| services.Type_ := services.UserCA;
           services.DomainName := teleport.RemoteUser.ClusterName u |}
        false;
  match r with
  | Err err => mret (Err (trace.Wrap err))
  | Ok ca =>
    match services.Map (services.CombinedMapping ca)
            (teleport.RemoteUser.RemoteRoles u) with
    | Err err =>
      mret (Err (trace.AccessDenied
        ("failed to map roles for remote user "
           +:+ teleport.RemoteUser.Username u
           +:+ " from cluster " +:+ teleport.RemoteUser.ClusterName u)))
    | Ok roleNames =>
      r ← services.FetchRoles roleNames (access a) None;
      match r with
      | Err err => mret (Err (trace.Wrap err))
      | Ok checker =>
        match services.NewUser
                ("remote-" +:+ teleport.RemoteUser.Username u
                   +:+ "-" +:+ teleport.RemoteUser.ClusterName u) with
        | Err err => mret (Err (trace.Wrap err))
        | Ok user => mret (Ok {| User := user; Checker := checker |})
        end
      end
    end
  end.

Definition authorizeBuiltinRole (a : authorizer) (r : teleport.BuiltinRole.t)
  : M (result AuthContext) :=
  mret (contextForBuiltinRole (teleport.BuiltinRole.Role r)).

(** [(a *authorizer) Authorize]; [ctx = None] is the nil context. *)
Definition authorizer_Authorize (a : authorizer) (ctx : option context.Context)
  : M (result AuthContext) :=
  match ctx with
  | None => mret (Err (trace.AccessDenied "missing authentication context"))
  | Some ctx =>
    let userI := context.Value_ContextUser ctx in
    match userI with
    | context.LocalUser user => authorizeLocalUser a user
    | context.RemoteUser user => authorizeRemoteUser a user
    | context.BuiltinRole user => authorizeBuiltinRole a user
    | _ =>
      mret (Err (trace.AccessDenied
        ("unsupported context type " +:+ context.Format_T userI)))
    end
  end.

(** [(r *contextAuthorizer) Authorize]. *)
Definition contextAuthorizer_Authorize (r : contextAuthorizer)
    (ctx : option context.Context) : M (result AuthContext) :=
  mret (Ok (authContext r)).

(** A call of [Authorize] through the interface. *)
Definition Authorize (az : Authorizer) (ctx : option context.Context)
  : M (result AuthContext) :=
  match az with
  | authorizer_impl a => authorizer_Authorize a ctx
  | contextAuthorizer_impl r => contextAuthorizer_Authorize r ctx
  end.

Definition NewRoleAuthorizer (r : teleport.Role) : result Authorizer :=
  match contextForBuiltinRole r with
  | Err err => Err (trace.Wrap err)
  | Ok authContext =>
    Ok (contextAuthorizer_impl {| authContext := authContext |})
  end.

Definition NewUserAuthorizer (username : string)
    (identity : services.Identity) (access : services.Access)
  : M (result Authorizer) :=
  r ← contextForLocalUser username identity access;
  match r with
  | Err err => mret (Err (trace.Wrap err))
  | Ok authContext =>
    mret (Ok (contextAuthorizer_impl {| authContext := authContext |}))
  end.

(** The arguments are interface values, [None] the nil one. *)
Definition NewAuthorizer (access : option services.Access)
    (identity : option services.Identity) (trust : option services.Trust)
  : result Authorizer :=
  match access with
  | None => Err (trace.BadParameter "missing parameter access")
  | Some access =>
    match identity with
    | None => Err (trace.BadParameter "missing parameter identity")
    | Some identity =>
      match trust with
      | None => Err (trace.BadParameter "missing parameter trust")
      | Some trust =>
        Ok (authorizer_impl
              {| access := access; identity := identity; trust := trust |})
      end
    end
  end.

End permissions.
End auth.

(** ** The methods of [*authorizer] on their receiver in memory

    [Authorize] and the three methods it dispatches to have the pointer
    receiver [a *authorizer]: they could write the struct they read their
    stores from.  Here they run on the struct as it lies in memory beside
    the state of the stores; [a.access], [a.identity] and [a.trust] are
    reads of it. *)

Module receiver.
Section methods.
Context `{T : teleport.Package} `{C : services.Consts}
        `{S : !services.Package}.

(** What a method call can reach: the struct behind the receiver, and the
    state of the stores. *)
Record process : Type := mkProcess {
  self : auth.authorizer;
  stores : services.World;
}.

Definition P (A : Type) : Type := process -> A * process.

#[local] Instance P_ret : MRet P := fun A (x : A) p => (x, p).
#[local] Instance P_bind : MBind P :=
  fun A B (f : A -> P B) (m : P A) p => let '(x, p') := m p in f x p'.

(** [a.field]. *)
Definition load {A : Type} (field : auth.authorizer -> A) : P A :=
  fun p => (field (self p), p).

(** A call into the stores, or into a function that only calls into them:
    it runs on the stores' state; the stores hold no pointer to the
    authorizer, whose struct they leave as it is. *)
Definition call {A : Type} (m : auth.M A) : P A :=
  fun p => let '(x, w) := m (stores p) in (x, {| self := self p; stores := w |}).

Definition authorizeLocalUser (u : teleport.LocalUser.t)
  : P (result auth.AuthContext) :=
  identity ← load auth.identity;
  access ← load auth.access;
  call (auth.contextForLocalUser (teleport.LocalUser.Username u)
          identity access).

Definition authorizeRemoteUser (u : teleport.RemoteUser.t)
  : P (result auth.AuthContext) :=
  trust ← load auth.trust;
  r ← call (services.GetCertAuthority trust
              {| services.Type_ := services.UserCA;
                 services.DomainName := teleport.RemoteUser.ClusterName u |}
              false);
  match r with
  | Err err => mret (Err (trace.Wrap err))
  | Ok ca =>
    match services.Map (services.CombinedMapping ca)
            (teleport.RemoteUser.RemoteRoles u) with
    | Err err =>
      mret (Err (trace.AccessDenied
        ("failed to map roles for remote user "
           +:+ teleport.RemoteUser.Username u
           +:+ " from cluster " +:+ teleport.RemoteUser.ClusterName u)))
    | Ok roleNames =>
      access ← load auth.access;
      r ← call (services.FetchRoles roleNames access None);
      match r with
      | Err err => mret (Err (trace.Wrap err))
      | Ok checker =>
        match services.NewUser
                ("remote-" +:+ teleport.RemoteUser.Username u
                   +:+ "-" +:+ teleport.RemoteUser.ClusterName u) with
        | Err err => mret (Err (trace.Wrap err))
        | Ok user =>
          mret (Ok {| auth.User := user; auth.Checker := checker |})
        end
      end
    end
  end.

Definition authorizeBuiltinRole (r : teleport.BuiltinRole.t)
  : P (result auth.AuthContext) :=
  mret (auth.contextForBuiltinRole (teleport.BuiltinRole.Role r)).

Definition Authorize (ctx : option context.Context)
  : P (result auth.AuthContext) :=
  match ctx with
  | None => mret (Err (trace.AccessDenied "missing authentication context"))
  | Some ctx =>
    let userI := context.Value_ContextUser ctx in
    match userI with
    | context.LocalUser user => authorizeLocalUser user
    | context.RemoteUser user => authorizeRemoteUser user
    | context.BuiltinRole user => authorizeBuiltinRole user
    | _ =>
      mret (Err (trace.AccessDenied
        ("unsupported context type " +:+ context.Format_T userI)))
    end
  end.

End methods.
End receiver.

(** ** The Builtin Policy Table of the specification *)

Section policy_table.
Context `{T : teleport.Package} `{C : services.Consts}.

(** One row as section 4.2 of the specification writes it: read and write
    on the kinds [rw], read alone on the kinds [ro], in the namespaces
    [namespaces]; nothing else set. *)
Definition grants (namespaces rw ro : list string) : services.RoleSpecV3 :=
    {| services.Options := None;
       services.Allow := {|
         services.Logins := None;
         services.Namespaces := Some namespaces;
         services.NodeLabels := None;
         services.Rules := Some (list_to_map
           (((fun k => (k, services.RW)) <$> rw)
              ++ ((fun k => (k, services.RO)) <$> ro))) |} |}.

(** The table of section 4.2, row by row in the specification's words:
    the namespace is the wildcard unless the row says otherwise (only the
    nop row does); provision-token and nop have an empty rule set; admin
    has read and write on the wildcard kind, the unrestricted maximum
    session lifetime, the unrestricted node label selector and an
    explicitly empty login list. *)
Definition BuiltinPolicyTable : list (teleport.Role * services.RoleSpecV3) :=
    [ (teleport.RoleAuth,
       grants [services.Wildcard] [services.KindAuthServer] []);
      (teleport.RoleProvisionToken,
       grants [services.Wildcard] [] []);
      (teleport.RoleNode,
       grants [services.Wildcard]
         [services.KindNode; services.KindSession; services.KindEvent]
         [services.KindProxy; services.KindCertAuthority; services.KindUser;
          services.KindNamespace; services.KindRole; services.KindAuthServer;
          services.KindReverseTunnel]);
      (teleport.RoleProxy,
       grants [services.Wildcard]
         [services.KindProxy; services.KindOIDCRequest; services.KindSession;
          services.KindEvent; services.KindSAMLRequest]
         [services.KindOIDC; services.KindSAML; services.KindNamespace;
          services.KindNode; services.KindAuthServer;
          services.KindReverseTunnel; services.KindCertAuthority;
          services.KindUser; services.KindRole;
          services.KindClusterAuthPreference; services.KindClusterName;
          services.KindStaticTokens]);
      (teleport.RoleWeb,
       grants [services.Wildcard]
         [services.KindWebSession; services.KindSession]
         [services.KindAuthServer; services.KindUser; services.KindRole;
          services.KindNamespace; services.KindTrustedCluster]);
      (teleport.RoleSignup,
       grants [services.Wildcard] []
         [services.KindAuthServer; services.KindClusterAuthPreference]);
      (teleport.RoleAdmin,
       {| services.Options :=
            Some {[ services.MaxSessionTTL := services.MaxDuration ]};
          services.Allow := {|
            services.Logins := Some [];
            services.Namespaces := Some [services.Wildcard];
            services.NodeLabels :=
              Some {[ services.Wildcard := services.Wildcard ]};
            services.Rules := Some {[ services.Wildcard := services.RW ]} |} |});
      (teleport.RoleNop, grants [] [] []) ].

(** The role identifiers the table recognizes. *)
Definition known_roles : list teleport.Role := BuiltinPolicyTable.*1.

(** The zero [RoleSpecV3]: no options, no namespaces, no rules. *)
Definition empty_spec : services.RoleSpecV3 :=
    {| services.Options := None;
       services.Allow := {|
         services.Logins := None;
         services.Namespaces := None;
         services.NodeLabels := None;
         services.Rules := None |} |}.

(** The specification a builtin role is compiled from: its row of the
    table, except for provision-token, which gets the zero
    specification. *)
Definition compiled_from (r : teleport.Role) (spec : services.RoleSpecV3)
    : Prop :=
    (r ≠ teleport.RoleProvisionToken ∧ (r, spec) ∈ BuiltinPolicyTable)
    ∨ (r = teleport.RoleProvisionToken ∧ spec = empty_spec).

End policy_table.

(** ** Requests and the assumptions on the imported packages *)

Section requests.
Context `{T : teleport.Package} `{C : services.Consts}
        `{S : !services.Package}.

(** A request whose context carries [v] under [teleport.ContextUser]. *)
Definition request (v : context.value) : option context.Context :=
  Some {| context.Value_ContextUser := v |}.

Definition builtin_request (r : teleport.Role) : option context.Context :=
  request (context.BuiltinRole {| teleport.BuiltinRole.Role := r |}).

(** The role constants are pairwise different, as the Go compiler demands
    of the cases of one switch. *)
Definition roles_distinct : Prop := NoDup known_roles.

(** [services.NewUser] gives the user the name it is asked for. *)
Definition NewUser_keeps_name : Prop :=
  forall name user,
    services.NewUser name = Ok user -> services.GetName user = name.

(** The message of the denial for a remote user whose roles did not map. *)
Definition failed_to_map (u : teleport.RemoteUser.t) : string :=
  "failed to map roles for remote user " +:+ teleport.RemoteUser.Username u
    +:+ " from cluster " +:+ teleport.RemoteUser.ClusterName u.

(** The trust store's answer for the user authority of [u]'s cluster. *)
Definition anchor_lookup (a : auth.authorizer) (u : teleport.RemoteUser.t)
  : auth.M (result services.CertAuthority) :=
  services.GetCertAuthority (auth.trust a)
    {| services.Type_ := services.UserCA;
       services.DomainName := teleport.RemoteUser.ClusterName u |}
    false.

Definition remote_request (u : teleport.RemoteUser.t) : option context.Context :=
  request (context.RemoteUser u).

Definition local_request (u : teleport.LocalUser.t) : option context.Context :=
  request (context.LocalUser u).

(** The stores answer without changing their state. *)
Definition stores_read_only : Prop :=
  (forall identity username w,
     (services.GetUser identity username w).2 = w)
  /\ (forall roleNames access traits w,
     (services.FetchRoles roleNames access traits w).2 = w)
  /\ (forall trust id loadKeys w,
     (services.GetCertAuthority trust id loadKeys w).2 = w).

(** The context carries one of the three identity structs. *)
Definition carries_identity (ctx : option context.Context) : bool :=
  match ctx with
  | Some {| context.Value_ContextUser := context.LocalUser _ |}
  | Some {| context.Value_ContextUser := context.RemoteUser _ |}
  | Some {| context.Value_ContextUser := context.BuiltinRole _ |} => true
  | _ => false
  end.

(** What a constructor of a fixed authorizer makes of a resolved context:
    the authorizer that holds it, or the error wrapped once more. *)
Definition fixed (r : result auth.AuthContext) : result auth.Authorizer :=
  match r with
  | Ok authContext =>
    Ok (auth.contextAuthorizer_impl {| auth.authContext := authContext |})
  | Err err => Err (trace.Wrap err)
  end.

(** The string has a hyphen in it. *)
Fixpoint has_hyphen (s : string) : bool :=
  match s with
  | EmptyString => false
  | String c s' => if decide (String c "" = "-") then true else has_hyphen s'
  end.

End requests.

(** ** An implementation of the imported packages *)

Module Model.

(** Role identifiers are the strings the specification's table uses. *)
#[local] Instance T : teleport.Package := {|
  teleport.Role := string;
  teleport.Role_eq_dec := _;
  teleport.RoleAuth := "auth-server";
  teleport.RoleProvisionToken := "provision-token";
  teleport.RoleNode := "node";
  teleport.RoleProxy := "proxy";
  teleport.RoleWeb := "web";
  teleport.RoleSignup := "signup";
  teleport.RoleAdmin := "admin";
  teleport.RoleNop := "nop";
  teleport.Role_String := fun r => r;
  teleport.Role_Format := fun r => r;
|}.

#[local] Instance C : services.Consts := {|
  services.Wildcard := "*";
  services.KindAuthServer := "auth_server";
  services.KindNode := "node";
  services.KindSession := "session";
  services.KindEvent := "event";
  services.KindProxy := "proxy";
  services.KindCertAuthority := "cert_authority";
  services.KindUser := "user";
  services.KindNamespace := "namespace";
  services.KindRole := "role";
  services.KindReverseTunnel := "tunnel";
  services.KindOIDCRequest := "oidc_request";
  services.KindSAMLRequest := "saml_request";
  services.KindOIDC := "oidc";
  services.KindSAML := "saml";
  services.KindClusterAuthPreference := "cluster_auth_preference";
  services.KindClusterName := "cluster_name";
  services.KindStaticTokens := "static_tokens";
  services.KindWebSession := "web_session";
  services.KindTrustedCluster := "trusted_cluster";
  services.RW := ["read"; "write"];
  services.RO := ["read"];
  services.MaxSessionTTL := "max_session_ttl";
  services.OptionValue := N;
  services.MaxDuration := 9223372036854775807%N;
  services.CertAuthType := string;
  services.UserCA := "user";
|}.

Record user : Type := mkUser {
  name : string;
  roles : list string;
  traits : services.Traits;
}.

(** A checker is the list of named role specifications it was compiled
  from, with the traits applied to them. *)
Record checker : Type := mkChecker {
  role_set : list (string * services.RoleSpecV3);
  applied : services.Traits;
}.

(** What the three stores hold: users by name, role specifications by
  name, and per cluster the pairs (remote role, local role) of its
  certificate authority. *)
Record world : Type := mkWorld {
  users : gmap string user;
  specs : gmap string services.RoleSpecV3;
  authorities : gmap string (list (string * string));
}.

Definition new_user (n : string) : result user :=
  if decide (n = "") then Err (trace.BadParameter "missing user name")
  else Ok {| name := n; roles := []; traits := None |}.

Definition fetch_roles (names : list string) (_ : unit)
    (tr : services.Traits) (w : world) : result checker * world :=
  match mapM (fun n => pair n <$> specs w !! n) names with
  | Some rs => (Ok {| role_set := rs; applied := tr |}, w)
  | None => (Err (trace.NotFound "role is not found"), w)
  end.

Definition get_user (_ : unit) (n : string) (w : world)
  : result user * world :=
  match users w !! n with
  | Some u => (Ok u, w)
  | None => (Err (trace.NotFound ("user " +:+ n +:+ " is not found")), w)
  end.

(** A pair with an empty role name makes the mapping invalid; otherwise
  the local roles of the pairs whose remote role was presented. *)
Definition map_roles (m : list (string * string)) (remote : list string)
  : result (list string) :=
  if decide (Exists (fun p => p.1 = "" ∨ p.2 = "") m) then
    Err (trace.BadParameter "invalid role mapping")
  else
    Ok (snd <$> filter (fun p => p.1 ∈ remote) m).

Definition get_cert_authority (_ : unit) (id : services.CertAuthID)
    (loadKeys : bool) (w : world)
  : result (list (string * string)) * world :=
  match authorities w !! services.DomainName id with
  | Some ca => (Ok ca, w)
  | None =>
    (Err (trace.NotFound
       ("cluster " +:+ services.DomainName id +:+ " is not found")), w)
  end.

#[local] Instance S : services.Package := {|
  services.World := world;
  services.User := user;
  services.GetName := name;
  services.GetRoles := roles;
  services.GetTraits := traits;
  services.NewUser := new_user;
  services.AccessChecker := checker;
  services.FromSpec := fun n spec =>
    Ok {| role_set := [(n, spec)]; applied := None |};
  services.Access := unit;
  services.FetchRoles := fetch_roles;
  services.Identity := unit;
  services.GetUser := get_user;
  services.RoleMap := list (string * string);
  services.Map := map_roles;
  services.CertAuthority := list (string * string);
  services.CombinedMapping := fun ca => ca;
  services.Trust := unit;
  services.GetCertAuthority := get_cert_authority;
|}.

(** A cluster with one local user, one local role and one trusted remote
  cluster. *)
Definition local_viewer : services.RoleSpecV3 :=
  grants ["default"] [] ["node"; "session"].

Definition w0 : world := {|
  users := {[ "bob" :=
    {| name := "bob"; roles := ["local-viewer"];
       traits := Some {[ "logins" := ["bob"; "root"] ]} |} ]};
  specs := {[ "local-viewer" := local_viewer ]};
  authorities := {[ "cluster-b" := [("viewer", "local-viewer")];
                    "cluster-c" := [("", "local-viewer")] ]};
|}.

Definition a0 : auth.authorizer :=
  {| auth.access := (); auth.identity := (); auth.trust := () |}.

End Model.

(** ** A second implementation, with constructors that refuse *)

Module Strict.
#[local] Existing Instances Model.T Model.C.

(** As [Model.new_user], but no name may be longer than twelve
    characters. *)
Definition new_user (n : string) : result Model.user :=
  if decide (12 < String.length n) then
    Err (trace.BadParameter "user name is too long")
  else Model.new_user n.

(** A specification must name its namespaces. *)
Definition from_spec (n : string)
    (spec : services.RoleSpecV3) : result Model.checker :=
  match services.Namespaces (services.Allow spec) with
  | None => Err (trace.BadParameter "missing namespaces")
  | Some _ => Ok {| Model.role_set := [(n, spec)]; Model.applied := None |}
  end.

#[local] Instance S : services.Package := {|
  services.World := Model.world;
  services.User := Model.user;
  services.GetName := Model.name;
  services.GetRoles := Model.roles;
  services.GetTraits := Model.traits;
  services.NewUser := new_user;
  services.AccessChecker := Model.checker;
  services.FromSpec := from_spec;
  services.Access := unit;
  services.FetchRoles := Model.fetch_roles;
  services.Identity := unit;
  services.GetUser := Model.get_user;
  services.RoleMap := list (string * string);
  services.Map := Model.map_roles;
  services.CertAuthority := list (string * string);
  services.CombinedMapping := fun ca => ca;
  services.Trust := unit;
  services.GetCertAuthority := Model.get_cert_authority;
|}.

Definition a0 : auth.authorizer :=
  {| auth.access := (); auth.identity := (); auth.trust := () |}.

End Strict.

(** Requests to the model cluster, and the contexts they resolve to. *)

Section model_requests.
#[local] Existing Instances Model.T Model.C Model.S.

Definition alice (cluster : string) (remote_roles : list string)
  : teleport.RemoteUser.t :=
  {| teleport.RemoteUser.Username := "alice";
     teleport.RemoteUser.ClusterName := cluster;
     teleport.RemoteUser.RemoteRoles := remote_roles |}.

Definition the_authorizer : auth.Authorizer := auth.authorizer_impl Model.a0.

(** A builtin role claim of the model, whose roles are strings. *)
Definition builtin_claim (r : string) : option context.Context :=
  builtin_request (T := Model.T) r.

Definition alice_context : auth.AuthContext :=
  {| auth.User := Model.mkUser "remote-alice-cluster-b" [] None;
     auth.Checker :=
       Model.mkChecker [("local-viewer", Model.local_viewer)] None |}.

Definition bob_context : auth.AuthContext :=
  {| auth.User :=
       Model.mkUser "bob" ["local-viewer"]
         (Some {[ "logins" := ["bob"; "root"] ]});
     auth.Checker :=
       Model.mkChecker [("local-viewer", Model.local_viewer)]
         (Some {[ "logins" := ["bob"; "root"] ]}) |}.

Definition remote (username cluster : string) (remote_roles : list string)
  : teleport.RemoteUser.t :=
  {| teleport.RemoteUser.Username := username;
     teleport.RemoteUser.ClusterName := cluster;
     teleport.RemoteUser.RemoteRoles := remote_roles |}.

Definition viewer_context (name : string) : auth.AuthContext :=
  {| auth.User := Model.mkUser name [] None;
     auth.Checker :=
       Model.mkChecker [("local-viewer", Model.local_viewer)] None |}.

(** The authorizer of the model in memory, beside the model's stores. *)
Definition model_process : receiver.process :=
  {| receiver.self := Model.a0; receiver.stores := Model.w0 |}.

Definition roleless_context (name : string) : auth.AuthContext :=
  {| auth.User := Model.mkUser name [] None;
     auth.Checker := Model.mkChecker [] None |}.

Definition nop_context : auth.AuthContext :=
  {| auth.User := Model.mkUser "builtin-nop" [] None;
     auth.Checker := Model.mkChecker [("nop", grants [] [] [])] None |}.

(** A cluster that trusts the clusters "b" and "x-b". *)
Definition hyphen_world : Model.world := {|
  Model.users := ∅;
  Model.specs := {[ "local-viewer" := Model.local_viewer ]};
  Model.authorities := {[ "b" := [("viewer", "local-viewer")];
                          "x-b" := [("viewer", "local-viewer")] ]};
|}.

End model_requests.

(** ** Properties of [Authorize] *)

Section claims.
Context `{T : teleport.Package} `{C : services.Consts}
        `{S : !services.Package}.

Ltac split_distinct H :=
  unfold roles_distinct, known_roles, BuiltinPolicyTable in H;
  cbn [fmap list_fmap fst] in H;
  repeat (apply NoDup_cons in H as [? H]);
  repeat match goal with
         | N : _ ∉ _ :: _ |- _ => apply not_elem_of_cons in N as [? N]
         end.

Ltac table_rows H :=
  unfold BuiltinPolicyTable in H;
  repeat (apply elem_of_cons in H as [H | H]; [injection H as -> -> | ]);
  [ .. | by apply elem_of_nil in H ].

Ltac run_authorize :=
  cbn;
  unfold auth.authorizeRemoteUser, auth.authorizeLocalUser,
    auth.contextForLocalUser, anchor_lookup, mbind, auth.M_bind, mret,
    auth.M_ret in *.

Lemma Unwrap_Wrap (err : trace.error) :
  trace.Unwrap (trace.Wrap err) = trace.Unwrap err.
Proof. reflexivity. Qed.

Lemma IsNotFound_Wrap (err : trace.error) :
  trace.IsNotFound (trace.Wrap err) = trace.IsNotFound err.
Proof. reflexivity. Qed.

(** On a role of the table, the switch reaches the case of that role. *)
Lemma GetCheckerForBuiltinRole_known (r : teleport.Role)
    (spec : services.RoleSpecV3) :
  roles_distinct -> compiled_from r spec ->
  auth.GetCheckerForBuiltinRole r
    = services.FromSpec (teleport.Role_String r) spec.
Proof.
  intros D [[Hne Hin] | [-> ->]].
  - split_distinct D. table_rows Hin;
      unfold auth.GetCheckerForBuiltinRole;
      repeat case_decide; try congruence; reflexivity.
  - split_distinct D. unfold auth.GetCheckerForBuiltinRole.
    repeat case_decide; try congruence; reflexivity.
Qed.

(** Off the table, the switch falls through to the final return. *)
Lemma GetCheckerForBuiltinRole_unknown (r : teleport.Role) :
  r ∉ known_roles ->
  auth.GetCheckerForBuiltinRole r
    = Err (trace.NotFound (teleport.Role_String r +:+ " is not reconginzed")).
Proof.
  intros N. unfold known_roles, BuiltinPolicyTable in N.
  cbn [fmap list_fmap fst] in N.
  repeat (apply not_elem_of_cons in N as [? N]).
  unfold auth.GetCheckerForBuiltinRole.
  repeat case_decide; try congruence; reflexivity.
Qed.

Lemma length_append (s1 s2 : string) :
  String.length (s1 +:+ s2) = String.length s1 + String.length s2.
Proof. induction s1 as [| c s1 IH]; simpl; [reflexivity | by rewrite IH]. Qed.

(** The name [authorizeRemoteUser] builds is longer than the user name it
    is built from. *)
Lemma remote_name_not_username (username cluster : string) :
  "remote-" +:+ username +:+ "-" +:+ cluster ≠ username.
Proof.
  intros E. apply (f_equal String.length) in E.
  rewrite !length_append in E. simpl in E. lia.
Qed.

(** Every successful run of [authorizeRemoteUser] went through its four
    steps: anchor, mapping, compilation without traits, new user. *)
Lemma authorizeRemoteUser_Ok (a : auth.authorizer) (u : teleport.RemoteUser.t)
    (w w' : services.World) (c : auth.AuthContext) :
  auth.authorizeRemoteUser a u w = (Ok c, w') ->
  exists ca roleNames w1,
    services.GetCertAuthority (auth.trust a)
      {| services.Type_ := services.UserCA;
         services.DomainName := teleport.RemoteUser.ClusterName u |}
      false w = (Ok ca, w1)
    /\ services.Map (services.CombinedMapping ca)
         (teleport.RemoteUser.RemoteRoles u) = Ok roleNames
    /\ services.FetchRoles roleNames (auth.access a) None w1
         = (Ok (auth.Checker c), w')
    /\ services.NewUser
         ("remote-" +:+ teleport.RemoteUser.Username u
            +:+ "-" +:+ teleport.RemoteUser.ClusterName u)
         = Ok (auth.User c).
Proof.
  unfold auth.authorizeRemoteUser, mbind, auth.M_bind, mret, auth.M_ret.
  destruct (services.GetCertAuthority _ _ _ w) as [[ca | e] w1]; [| done].
  destruct (services.Map _ _) as [roleNames | e] eqn:Hmap; [| done].
  destruct (services.FetchRoles _ _ _ w1) as [[checker | e] w2] eqn:Hfetch;
    [| done].
  destruct (services.NewUser _) as [user | e] eqn:Hnew; [| done].
  intros [= <- <-]. exists ca, roleNames, w1. by rewrite Hmap, Hfetch.
Qed.

(** Every successful run of [contextForLocalUser] looked the user up and
    compiled that user's roles with that user's traits. *)
Lemma contextForLocalUser_Ok (username : string) (identity : services.Identity)
    (access : services.Access) (w w' : services.World) (c : auth.AuthContext) :
  auth.contextForLocalUser username identity access w = (Ok c, w') ->
  exists w1,
    services.GetUser identity username w = (Ok (auth.User c), w1)
    /\ services.FetchRoles (services.GetRoles (auth.User c)) access
         (services.GetTraits (auth.User c)) w1 = (Ok (auth.Checker c), w').
Proof.
  unfold auth.contextForLocalUser, mbind, auth.M_bind, mret, auth.M_ret.
  destruct (services.GetUser _ _ w) as [[user | e] w1]; [| done].
  destruct (services.FetchRoles _ _ _ w1) as [[checker | e] w2] eqn:Hfetch;
    [| done].
  intros [= <- <-]. by exists w1.
Qed.

(** C1, amended.  For every role [r] of the Builtin Policy Table, with
    [spec] the specification the role is compiled from (its row of the
    table; the zero specification for provision-token): when
    [services.FromSpec] and [services.NewUser] accept their arguments,
    [Authorize] on the builtin claim for [r] returns the user [NewUser] made
    for the name ["builtin-"] followed by [r] (a hyphen, no colon), with the
    checker [FromSpec] made from [spec]; this for every authorizer and every
    state of the stores, which is left as it was. *)
Theorem builtin_role_authorized (a : auth.authorizer) (r : teleport.Role)
    (spec : services.RoleSpecV3) (checker : services.AccessChecker)
    (user : services.User) (w : services.World) :
  roles_distinct -> NewUser_keeps_name ->
  compiled_from r spec ->
  services.FromSpec (teleport.Role_String r) spec = Ok checker ->
  services.NewUser ("builtin-" +:+ teleport.Role_Format r) = Ok user ->
  auth.Authorize (auth.authorizer_impl a) (builtin_request r) w
    = (Ok {| auth.User := user; auth.Checker := checker |}, w)
  /\ services.GetName user = "builtin-" +:+ teleport.Role_Format r.
Proof.
  intros D Hname Hrow Hspec Hnew. split; [| by apply Hname].
  cbn. unfold auth.authorizeBuiltinRole, auth.contextForBuiltinRole. cbn.
  by rewrite (GetCheckerForBuiltinRole_known r spec D Hrow), Hspec, Hnew.
Qed.

(** C2, amended.  When [Authorize] returns a context for a remote user
    claim, its user is named ["remote-<username>-<sourceClusterName>"]
    (hyphens, no colons), and that name differs from the raw user name. *)
Theorem remote_user_principal_name (a : auth.authorizer)
    (u : teleport.RemoteUser.t) (w w' : services.World)
    (c : auth.AuthContext) :
  NewUser_keeps_name ->
  auth.Authorize (auth.authorizer_impl a) (request (context.RemoteUser u)) w
    = (Ok c, w') ->
  services.GetName (auth.User c)
    = "remote-" +:+ teleport.RemoteUser.Username u
        +:+ "-" +:+ teleport.RemoteUser.ClusterName u
  /\ services.GetName (auth.User c) ≠ teleport.RemoteUser.Username u.
Proof.
  intros Hname H. cbn in H.
  apply authorizeRemoteUser_Ok in H as (ca & roleNames & w1 & _ & _ & _ & Hnew).
  apply Hname in Hnew. rewrite Hnew.
  split; [reflexivity | apply remote_name_not_username].
Qed.

(** C3, amended.  With a nil request context [Authorize] fails with access
    denied, message "missing authentication context"; with a context that
    carries no identity it fails with access denied, message "unsupported
    context type <nil>".  Neither returns a context, and neither touches
    the stores. *)
Theorem missing_identity_denied (a : auth.authorizer) (w : services.World) :
  auth.Authorize (auth.authorizer_impl a) None w
    = (Err (trace.AccessDenied "missing authentication context"), w)
  /\ auth.Authorize (auth.authorizer_impl a) (request context.Nil) w
    = (Err (trace.AccessDenied "unsupported context type <nil>"), w)
  /\ trace.IsAccessDenied (trace.AccessDenied "missing authentication context")
     = true
  /\ trace.IsAccessDenied (trace.AccessDenied "unsupported context type <nil>")
     = true.
Proof. repeat split. Qed.

(** C4.  For a builtin role claim whose role is not in the table,
    [Authorize] fails; the error is a not-found error whose message starts
    with the role's [String()], and no context is returned. *)
Theorem unknown_builtin_role_not_found (a : auth.authorizer)
    (r : teleport.Role) (w : services.World) :
  r ∉ known_roles ->
  exists err,
    auth.Authorize (auth.authorizer_impl a) (builtin_request r) w = (Err err, w)
    /\ trace.Unwrap err
       = trace.NotFoundError (teleport.Role_String r +:+ " is not reconginzed")
    /\ trace.IsNotFound err = true.
Proof.
  intros N. eexists. cbn.
  unfold auth.authorizeBuiltinRole, auth.contextForBuiltinRole. cbn.
  rewrite (GetCheckerForBuiltinRole_unknown r N). repeat split.
Qed.

(** C5, amended.  For a remote user claim whose cluster has a trust anchor
    and whose role mapping returns an error, [Authorize] fails with access
    denied, message "failed to map roles for remote user <username> from
    cluster <sourceClusterName>", and returns no context. *)
Theorem mapping_error_denied (a : auth.authorizer) (u : teleport.RemoteUser.t)
    (ca : services.CertAuthority) (err : trace.error)
    (w w1 : services.World) :
  anchor_lookup a u w = (Ok ca, w1) ->
  services.Map (services.CombinedMapping ca) (teleport.RemoteUser.RemoteRoles u)
    = Err err ->
  auth.Authorize (auth.authorizer_impl a) (remote_request u) w
    = (Err (trace.AccessDenied (failed_to_map u)), w1)
  /\ trace.Unwrap (trace.AccessDenied (failed_to_map u))
     = trace.AccessDeniedError (failed_to_map u).
Proof.
  intros Hca Hmap. split; [| reflexivity].
  run_authorize. by rewrite Hca, Hmap.
Qed.

(** C6.  A remote user claim whose cluster has no trust anchor: the trust
    store's lookup error comes back wrapped.  A local user claim whose user
    the identity store does not find: its not-found error comes back
    wrapped, still a not-found error, and no context is returned. *)
Theorem missing_anchor_or_user_fails (a : auth.authorizer) :
  (forall (u : teleport.RemoteUser.t) (err : trace.error)
          (w w1 : services.World),
     anchor_lookup a u w = (Err err, w1) ->
     auth.Authorize (auth.authorizer_impl a) (remote_request u) w
       = (Err (trace.Wrap err), w1)
     /\ trace.Unwrap (trace.Wrap err) = trace.Unwrap err)
  /\ (forall (u : teleport.LocalUser.t) (err : trace.error)
             (w w1 : services.World),
     services.GetUser (auth.identity a) (teleport.LocalUser.Username u) w
       = (Err err, w1) ->
     trace.IsNotFound err = true ->
     auth.Authorize (auth.authorizer_impl a) (local_request u) w
       = (Err (trace.Wrap err), w1)
     /\ trace.IsNotFound (trace.Wrap err) = true).
Proof.
  split.
  - intros u err w w1 Hca. split; [| reflexivity].
    run_authorize. by rewrite Hca.
  - intros u err w w1 Hget Hnf. split; [| by rewrite IsNotFound_Wrap].
    run_authorize. by rewrite Hget.
Qed.

(** C7, amended.  A failure of the identity store's lookup, of the trust
    store's lookup, or of the compilation of roles through the access store
    is returned wrapped, with the original error as its cause.  A failure
    of the role mapping is answered with the access-denied error of
    [failed_to_map], which does not carry the mapping's error.  In each
    case [Authorize] returns an error and no context. *)
Theorem collaborator_errors_returned (a : auth.authorizer)
    (err : trace.error) (w w1 w2 : services.World) :
  (forall u : teleport.LocalUser.t,
     services.GetUser (auth.identity a) (teleport.LocalUser.Username u) w
       = (Err err, w1) ->
     auth.Authorize (auth.authorizer_impl a) (local_request u) w
       = (Err (trace.Wrap err), w1))
  /\ (forall (u : teleport.LocalUser.t) (user : services.User),
     services.GetUser (auth.identity a) (teleport.LocalUser.Username u) w
       = (Ok user, w1) ->
     services.FetchRoles (services.GetRoles user) (auth.access a)
       (services.GetTraits user) w1 = (Err err, w2) ->
     auth.Authorize (auth.authorizer_impl a) (local_request u) w
       = (Err (trace.Wrap err), w2))
  /\ (forall u : teleport.RemoteUser.t,
     anchor_lookup a u w = (Err err, w1) ->
     auth.Authorize (auth.authorizer_impl a) (remote_request u) w
       = (Err (trace.Wrap err), w1))
  /\ (forall (u : teleport.RemoteUser.t) (ca : services.CertAuthority)
             (roleNames : list string),
     anchor_lookup a u w = (Ok ca, w1) ->
     services.Map (services.CombinedMapping ca)
       (teleport.RemoteUser.RemoteRoles u) = Ok roleNames ->
     services.FetchRoles roleNames (auth.access a) None w1 = (Err err, w2) ->
     auth.Authorize (auth.authorizer_impl a) (remote_request u) w
       = (Err (trace.Wrap err), w2))
  /\ (forall (u : teleport.RemoteUser.t) (ca : services.CertAuthority),
     anchor_lookup a u w = (Ok ca, w1) ->
     services.Map (services.CombinedMapping ca)
       (teleport.RemoteUser.RemoteRoles u) = Err err ->
     auth.Authorize (auth.authorizer_impl a) (remote_request u) w
       = (Err (trace.AccessDenied (failed_to_map u)), w1))
  /\ trace.Unwrap (trace.Wrap err) = trace.Unwrap err.
Proof.
  repeat split.
  - intros u H. run_authorize. by rewrite H.
  - intros u user H1 H2. run_authorize. by rewrite H1, H2.
  - intros u H. run_authorize. by rewrite H.
  - intros u ca roleNames H1 H2 H3. run_authorize. by rewrite H1, H2, H3.
  - intros u ca H1 H2. run_authorize. by rewrite H1, H2.
Qed.

(** C8.  For a remote user claim whose cluster has its authority and whose
    remote roles map to [roleNames], [Authorize] has the access store
    compile exactly [roleNames] with nil traits, and the checker of that
    compilation is the checker of the context it returns.  For a local
    user claim whose user the identity store returns, it has the access
    store compile that user's roles with that user's traits, and returns
    that user with that checker.  No context is returned whose checker was
    compiled otherwise. *)
Theorem checker_compiled_from (a : auth.authorizer) (w : services.World) :
  (forall (u : teleport.RemoteUser.t) ca roleNames checker user w1 w2,
     anchor_lookup a u w = (Ok ca, w1) ->
     services.Map (services.CombinedMapping ca)
       (teleport.RemoteUser.RemoteRoles u) = Ok roleNames ->
     services.FetchRoles roleNames (auth.access a) None w1
       = (Ok checker, w2) ->
     services.NewUser
       ("remote-" +:+ teleport.RemoteUser.Username u
          +:+ "-" +:+ teleport.RemoteUser.ClusterName u) = Ok user ->
     auth.Authorize (auth.authorizer_impl a) (remote_request u) w
       = (Ok {| auth.User := user; auth.Checker := checker |}, w2))
  /\ (forall (u : teleport.LocalUser.t) user checker w1 w2,
     services.GetUser (auth.identity a) (teleport.LocalUser.Username u) w
       = (Ok user, w1) ->
     services.FetchRoles (services.GetRoles user) (auth.access a)
       (services.GetTraits user) w1 = (Ok checker, w2) ->
     auth.Authorize (auth.authorizer_impl a) (local_request u) w
       = (Ok {| auth.User := user; auth.Checker := checker |}, w2))
  /\ (forall (u : teleport.RemoteUser.t) c w',
     auth.Authorize (auth.authorizer_impl a) (remote_request u) w = (Ok c, w') ->
     exists ca roleNames w1,
       anchor_lookup a u w = (Ok ca, w1)
       /\ services.Map (services.CombinedMapping ca)
            (teleport.RemoteUser.RemoteRoles u) = Ok roleNames
       /\ services.FetchRoles roleNames (auth.access a) None w1
            = (Ok (auth.Checker c), w'))
  /\ (forall (u : teleport.LocalUser.t) c w',
     auth.Authorize (auth.authorizer_impl a) (local_request u) w = (Ok c, w') ->
     exists w1,
       services.GetUser (auth.identity a) (teleport.LocalUser.Username u) w
         = (Ok (auth.User c), w1)
       /\ services.FetchRoles (services.GetRoles (auth.User c)) (auth.access a)
            (services.GetTraits (auth.User c)) w1
            = (Ok (auth.Checker c), w')).
Proof.
  split; [| split; [| split]].
  - intros u ca roleNames checker user w1 w2 Hca Hmap Hfetch Hnew.
    run_authorize. by rewrite Hca, Hmap, Hfetch, Hnew.
  - intros u user checker w1 w2 Hget Hfetch.
    run_authorize. by rewrite Hget, Hfetch.
  - intros u c w' H. cbn in H.
    apply authorizeRemoteUser_Ok in H as (ca & roleNames & w1 & ? & ? & ? & _).
    by exists ca, roleNames, w1.
  - intros u c w' H. cbn in H. unfold auth.authorizeLocalUser in H.
    by apply contextForLocalUser_Ok in H.
Qed.

(** [Authorize] changes the state only through the calls it makes. *)
Lemma Authorize_keeps_state (az : auth.Authorizer)
    (ctx : option context.Context) (w : services.World) :
  stores_read_only -> (auth.Authorize az ctx w).2 = w.
Proof.
  intros (Huser & Hfetch & Hca).
  destruct az as [a | r]; [| reflexivity].
  destruct ctx as [[[| u | u | r |]] |]; try reflexivity.
  - run_authorize.
    pose proof (Huser (auth.identity a) (teleport.LocalUser.Username u) w) as H1.
    destruct (services.GetUser _ _ w) as [[user | e] w1]; simpl in H1; subst w1;
      [| reflexivity].
    pose proof (Hfetch (services.GetRoles user) (auth.access a)
                  (services.GetTraits user) w) as H2.
    by destruct (services.FetchRoles _ _ _ w) as [[checker | e] w2].
  - run_authorize.
    match goal with
    | |- context [services.GetCertAuthority ?t ?i ?l w] =>
      pose proof (Hca t i l w) as H1;
      destruct (services.GetCertAuthority t i l w) as [[ca | e] w1]
    end; simpl in H1; subst w1; [| reflexivity].
    destruct (services.Map _ _) as [roleNames | e]; [| reflexivity].
    pose proof (Hfetch roleNames (auth.access a) None w) as H2.
    destruct (services.FetchRoles _ _ _ w) as [[checker | e] w2];
      simpl in H2; subst w2; [| reflexivity].
    by destruct (services.NewUser _).
Qed.

(** A method call on the receiver in memory computes what [Authorize]
    computes from the struct's fields, and leaves the struct as it was. *)
Lemma receiver_Authorize_run (ctx : option context.Context)
    (p : receiver.process) :
  receiver.Authorize ctx p
  = (let '(r, w) :=
       auth.authorizer_Authorize (receiver.self p) ctx (receiver.stores p) in
     (r, {| receiver.self := receiver.self p; receiver.stores := w |})).
Proof.
  destruct p as [a w].
  destruct ctx as [[[| u | u | r | t]] |]; try reflexivity.
  cbn. unfold receiver.authorizeRemoteUser, auth.authorizeRemoteUser,
    receiver.load, receiver.call, mbind, receiver.P_bind, auth.M_bind,
    mret, receiver.P_ret, auth.M_ret. cbn.
  destruct (services.GetCertAuthority _ _ _ w) as [[ca | e] w1]; cbn;
    [| reflexivity].
  destruct (services.Map _ _) as [roleNames | e]; cbn; [| reflexivity].
  destruct (services.FetchRoles _ _ _ w1) as [[checker | e] w2]; cbn;
    [| reflexivity].
  by destruct (services.NewUser _).
Qed.

(** C9.  [Authorize] keeps nothing between calls.  A call leaves the
    struct behind its receiver as it found it; so when a first call has
    left the state of the stores unchanged, a second call with the same
    claim returns the same result (the same user and checker, or the same
    error) and again leaves everything as it was; and with stores that
    answer without changing their state, a call changes nothing at all. *)
Theorem Authorize_idempotent (ctx : option context.Context)
    (p : receiver.process) :
  (forall r1 r2 p1 p2,
     receiver.Authorize ctx p = (r1, p1) ->
     receiver.stores p1 = receiver.stores p ->
     receiver.Authorize ctx p1 = (r2, p2) ->
     r1 = r2 /\ p2 = p1)
  /\ receiver.self (receiver.Authorize ctx p).2 = receiver.self p
  /\ (stores_read_only -> (receiver.Authorize ctx p).2 = p).
Proof.
  assert (Hself : receiver.self (receiver.Authorize ctx p).2 = receiver.self p).
  { rewrite receiver_Authorize_run.
    by destruct (auth.authorizer_Authorize _ _ _). }
  split; [| split; [exact Hself |]].
  - intros r1 r2 p1 p2 H1 Hstores H2.
    rewrite H1 in Hself. cbn in Hself.
    assert (p1 = p) as -> by (destruct p1, p; cbn in *; congruence).
    rewrite H1 in H2. by injection H2 as <- <-.
  - intros Hro. rewrite receiver_Authorize_run.
    pose proof (Authorize_keeps_state
                  (auth.authorizer_impl (receiver.self p)) ctx
                  (receiver.stores p) Hro) as Hw. cbn in Hw.
    destruct (auth.authorizer_Authorize _ _ _) as [r w]. cbn in *.
    subst w. by destruct p.
Qed.

(** C10.  [NewRoleAuthorizer] and [NewUserAuthorizer] resolve their claim
    when they are called.  [NewRoleAuthorizer] fails, with a not-found
    error, on a role outside the table; on a role of the table whose
    specification [services.FromSpec] accepts and whose name
    [services.NewUser] accepts, it returns the authorizer that holds that
    user and checker.  [NewUserAuthorizer] fails when the user lookup
    fails and when the compilation of the user's roles fails; when both
    succeed it returns the authorizer that holds that user and checker.
    Whatever authorizer either constructor returns answers every request
    context (the nil one included), in every state of the stores, with the
    context it holds and no error, and leaves the stores alone. *)
Theorem fixed_authorizers :
  (forall r : teleport.Role,
     r ∉ known_roles ->
     exists err, auth.NewRoleAuthorizer r = Err err
                 /\ trace.IsNotFound err = true)
  /\ (forall username identity access w w1 err,
     services.GetUser identity username w = (Err err, w1) ->
     auth.NewUserAuthorizer username identity access w
       = (Err (trace.Wrap (trace.Wrap err)), w1))
  /\ (forall username identity access w w1 w2 user err,
     services.GetUser identity username w = (Ok user, w1) ->
     services.FetchRoles (services.GetRoles user) access
       (services.GetTraits user) w1 = (Err err, w2) ->
     auth.NewUserAuthorizer username identity access w
       = (Err (trace.Wrap (trace.Wrap err)), w2))
  /\ (forall (r : teleport.Role) (az : auth.Authorizer),
     auth.NewRoleAuthorizer r = Ok az ->
     exists c, auth.contextForBuiltinRole r = Ok c
               /\ forall ctx w, auth.Authorize az ctx w = (Ok c, w))
  /\ (forall username identity access w w1 (az : auth.Authorizer),
     auth.NewUserAuthorizer username identity access w = (Ok az, w1) ->
     exists c, auth.contextForLocalUser username identity access w = (Ok c, w1)
               /\ forall ctx w', auth.Authorize az ctx w' = (Ok c, w'))
  /\ (forall (r : teleport.Role) spec checker user,
     roles_distinct -> compiled_from r spec ->
     services.FromSpec (teleport.Role_String r) spec = Ok checker ->
     services.NewUser ("builtin-" +:+ teleport.Role_Format r) = Ok user ->
     auth.NewRoleAuthorizer r
       = Ok (auth.contextAuthorizer_impl
               {| auth.authContext :=
                    {| auth.User := user; auth.Checker := checker |} |})
     /\ forall ctx w,
          auth.Authorize
            (auth.contextAuthorizer_impl
               {| auth.authContext :=
                    {| auth.User := user; auth.Checker := checker |} |})
            ctx w
          = (Ok {| auth.User := user; auth.Checker := checker |}, w))
  /\ (forall username identity access w w1 w2 user checker,
     services.GetUser identity username w = (Ok user, w1) ->
     services.FetchRoles (services.GetRoles user) access
       (services.GetTraits user) w1 = (Ok checker, w2) ->
     auth.NewUserAuthorizer username identity access w
       = (Ok (auth.contextAuthorizer_impl
                {| auth.authContext :=
                     {| auth.User := user; auth.Checker := checker |} |}),
          w2)
     /\ forall ctx w',
          auth.Authorize
            (auth.contextAuthorizer_impl
               {| auth.authContext :=
                    {| auth.User := user; auth.Checker := checker |} |})
            ctx w'
          = (Ok {| auth.User := user; auth.Checker := checker |}, w')).
Proof.
  split; [| split; [| split; [| split; [| split; [| split]]]]].
  - intros r N. eexists.
    unfold auth.NewRoleAuthorizer, auth.contextForBuiltinRole.
    rewrite (GetCheckerForBuiltinRole_unknown r N). split; reflexivity.
  - intros username identity access w w1 err H.
    unfold auth.NewUserAuthorizer. run_authorize. by rewrite H.
  - intros username identity access w w1 w2 user err H1 H2.
    unfold auth.NewUserAuthorizer. run_authorize. by rewrite H1, H2.
  - intros r az. unfold auth.NewRoleAuthorizer.
    destruct (auth.contextForBuiltinRole r) as [c | e]; [| done].
    intros [= <-]. by exists c.
  - intros username identity access w w1 az.
    unfold auth.NewUserAuthorizer, mbind, auth.M_bind, mret, auth.M_ret.
    destruct (auth.contextForLocalUser _ _ _ w) as [[c | e] w2]; [| done].
    intros [= <- <-]. by exists c.
  - intros r spec checker user D Hrow Hspec Hnew. split; [| reflexivity].
    unfold auth.NewRoleAuthorizer, auth.contextForBuiltinRole.
    by rewrite (GetCheckerForBuiltinRole_known r spec D Hrow), Hspec, Hnew.
  - intros username identity access w w1 w2 user checker H1 H2.
    split; [| reflexivity].
    unfold auth.NewUserAuthorizer. run_authorize. by rewrite H1, H2.
Qed.

(** Every successful run of [contextForBuiltinRole] compiled the checker
    and made the user named after the role. *)
Lemma contextForBuiltinRole_Ok (r : teleport.Role) (c : auth.AuthContext) :
  auth.contextForBuiltinRole r = Ok c ->
  auth.GetCheckerForBuiltinRole r = Ok (auth.Checker c)
  /\ services.NewUser ("builtin-" +:+ teleport.Role_Format r) = Ok (auth.User c).
Proof.
  unfold auth.contextForBuiltinRole.
  destruct (auth.GetCheckerForBuiltinRole r) as [checker | e]; [| done].
  destruct (services.NewUser _) as [user | e]; [| done].
  by intros [= <-].
Qed.

(** X1.  [NewAuthorizer] returns an authorizer only when all three
    collaborators are given, and then the authorizer holds exactly them;
    every error it returns is a bad-parameter error, for a collaborator
    that is indeed missing; a missing access store is reported whatever
    else is missing, a missing identity store before a missing trust
    store, and a missing trust store when it alone is missing; with all
    three given the call succeeds. *)
Theorem NewAuthorizer_needs_all_three (access : option services.Access)
    (identity : option services.Identity) (trust : option services.Trust) :
  (forall az, auth.NewAuthorizer access identity trust = Ok az ->
     exists a i t,
       access = Some a /\ identity = Some i /\ trust = Some t
       /\ az = auth.authorizer_impl
                 {| auth.access := a; auth.identity := i; auth.trust := t |})
  /\ (forall err, auth.NewAuthorizer access identity trust = Err err ->
     trace.IsBadParameter err = true
     /\ (access = None \/ identity = None \/ trust = None))
  /\ (access = None ->
     auth.NewAuthorizer access identity trust
       = Err (trace.BadParameter "missing parameter access"))
  /\ (is_Some access -> identity = None ->
     auth.NewAuthorizer access identity trust
       = Err (trace.BadParameter "missing parameter identity"))
  /\ (is_Some access -> is_Some identity -> trust = None ->
     auth.NewAuthorizer access identity trust
       = Err (trace.BadParameter "missing parameter trust"))
  /\ (forall a i t,
     access = Some a -> identity = Some i -> trust = Some t ->
     auth.NewAuthorizer access identity trust
       = Ok (auth.authorizer_impl
               {| auth.access := a; auth.identity := i; auth.trust := t |})).
Proof.
  split; [| split; [| split; [| split; [| split]]]].
  - intros az H.
    destruct access as [a |], identity as [i |], trust as [t |];
      cbn in H; try done.
    injection H as <-. by exists a, i, t.
  - intros err H.
    destruct access as [a |], identity as [i |], trust as [t |];
      cbn in H; try done; injection H as <-; (split; [reflexivity | auto]).
  - by intros ->.
  - by intros [a ->] ->.
  - by intros [a ->] [i ->] ->.
  - by intros a i t -> -> ->.
Qed.

(** X2.  The authorizer returns a context only for a request that carries
    a local user, a remote user or a builtin role; for every other request
    (a nil context, a context with no identity, an identity of another
    type) it fails with an access-denied error and leaves the stores
    alone. *)
Theorem only_identity_claims_authorized (a : auth.authorizer)
    (ctx : option context.Context) (w : services.World) :
  (forall c w',
     auth.Authorize (auth.authorizer_impl a) ctx w = (Ok c, w') ->
     carries_identity ctx = true)
  /\ (carries_identity ctx = false ->
     exists err,
       auth.Authorize (auth.authorizer_impl a) ctx w = (Err err, w)
       /\ trace.IsAccessDenied err = true).
Proof.
  split.
  - destruct ctx as [[[| u | u | r | t]] |]; cbn; done.
  - destruct ctx as [[[| u | u | r | t]] |]; cbn; try done;
      intros _; eexists; split; reflexivity.
Qed.

(** X3.  For a role of the table, a builtin claim fails with the wrapped
    error of [services.FromSpec] when that refuses the role's
    specification, whatever [services.NewUser] would do; and with the
    wrapped error of [services.NewUser] when only that fails.  The stores
    are left alone either way. *)
Theorem builtin_role_failures (a : auth.authorizer) (r : teleport.Role)
    (spec : services.RoleSpecV3) (w : services.World) :
  roles_distinct -> compiled_from r spec ->
  (forall err,
     services.FromSpec (teleport.Role_String r) spec = Err err ->
     auth.Authorize (auth.authorizer_impl a) (builtin_request r) w
       = (Err (trace.Wrap err), w))
  /\ (forall checker err,
     services.FromSpec (teleport.Role_String r) spec = Ok checker ->
     services.NewUser ("builtin-" +:+ teleport.Role_Format r) = Err err ->
     auth.Authorize (auth.authorizer_impl a) (builtin_request r) w
       = (Err (trace.Wrap err), w)).
Proof.
  intros D Hrow. split.
  - intros err Hspec. cbn.
    unfold auth.authorizeBuiltinRole, auth.contextForBuiltinRole. cbn.
    by rewrite (GetCheckerForBuiltinRole_known r spec D Hrow), Hspec.
  - intros checker err Hspec Hnew. cbn.
    unfold auth.authorizeBuiltinRole, auth.contextForBuiltinRole. cbn.
    by rewrite (GetCheckerForBuiltinRole_known r spec D Hrow), Hspec, Hnew.
Qed.

(** X4.  Whatever checker [GetCheckerForBuiltinRole] returns was made by
    [services.FromSpec] for the role's [String()] from a specification in
    which: only the admin role has options, logins or node labels; the
    namespaces are the wildcard alone, except for provision-token and nop;
    and every rule grants either [RW()] or [RO()]. *)
Theorem builtin_specifications_shape (r : teleport.Role)
    (checker : services.AccessChecker) :
  auth.GetCheckerForBuiltinRole r = Ok checker ->
  exists spec,
    services.FromSpec (teleport.Role_String r) spec = Ok checker
    /\ (r <> teleport.RoleAdmin ->
        services.Options spec = None
        /\ services.Logins (services.Allow spec) = None
        /\ services.NodeLabels (services.Allow spec) = None)
    /\ (services.Namespaces (services.Allow spec) = Some [services.Wildcard]
        \/ r = teleport.RoleProvisionToken \/ r = teleport.RoleNop)
    /\ (forall rules kind verbs,
        services.Rules (services.Allow spec) = Some rules ->
        rules !! kind = Some verbs ->
        verbs = services.RW \/ verbs = services.RO).
Proof.
  unfold auth.GetCheckerForBuiltinRole.
  repeat case_decide; try done;
    (intros Hspec; eexists; split; [exact Hspec |];
     cbn [services.Options services.Allow services.Logins services.NodeLabels
          services.Namespaces services.Rules];
     split; [by intros ? | split; [by auto |]];
     intros rules kind verbs [= <-] Hl; try done;
     repeat (apply lookup_insert_Some in Hl as [[_ <-] | [_ Hl]];
             [by auto |]);
     by rewrite lookup_empty in Hl).
Qed.

Lemma append_cons (c : Ascii.ascii) (s1 s2 : string) :
  String c s1 +:+ s2 = String c (s1 +:+ s2).
Proof. reflexivity. Qed.

Lemma append_assoc (s1 s2 s3 : string) :
  (s1 +:+ s2) +:+ s3 = s1 +:+ (s2 +:+ s3).
Proof.
  induction s1 as [| c s1 IH]; [reflexivity |].
  by rewrite !append_cons, IH.
Qed.

(** Before its first hyphen a string is read in one way only. *)
Lemma split_at_first_hyphen (u1 u2 c1 c2 : string) :
  has_hyphen u1 = false -> has_hyphen u2 = false ->
  u1 +:+ "-" +:+ c1 = u2 +:+ "-" +:+ c2 -> u1 = u2 /\ c1 = c2.
Proof.
  revert u2. induction u1 as [| a u1 IH]; intros [| b u2] H1 H2 E;
    rewrite ?append_cons in E; cbn in H1, H2.
  - injection E as E. change (c1 = c2) in E. by subst.
  - injection E as <- _. by case_decide.
  - injection E as -> _. by case_decide.
  - injection E as -> E. case_decide; [done |].
    by destruct (IH u2 H1 H2 E) as [-> ->].
Qed.

(** The name of the user in a context returned for a remote user claim. *)
Lemma remote_user_name (a : auth.authorizer) (u : teleport.RemoteUser.t)
    (w w' : services.World) (c : auth.AuthContext) :
  NewUser_keeps_name ->
  auth.Authorize (auth.authorizer_impl a) (remote_request u) w = (Ok c, w') ->
  services.GetName (auth.User c)
    = "remote-" +:+ teleport.RemoteUser.Username u
        +:+ "-" +:+ teleport.RemoteUser.ClusterName u.
Proof.
  intros Hname H. cbn in H.
  apply authorizeRemoteUser_Ok in H as (ca & roleNames & w1 & _ & _ & _ & Hnew).
  by apply Hname in Hnew.
Qed.

(** X5.  A remote user claim is authorized exactly when the trust store
    has the cluster's user authority, its mapping accepts the remote roles,
    the access store compiles the mapped roles (with nil traits) and
    [services.NewUser] accepts the name; the context then pairs that user
    with that checker, in the state the compilation left. *)
Theorem remote_user_authorized_iff (a : auth.authorizer)
    (u : teleport.RemoteUser.t) (w w' : services.World)
    (c : auth.AuthContext) :
  auth.Authorize (auth.authorizer_impl a) (remote_request u) w = (Ok c, w')
  <-> exists ca roleNames w1,
        anchor_lookup a u w = (Ok ca, w1)
        /\ services.Map (services.CombinedMapping ca)
             (teleport.RemoteUser.RemoteRoles u) = Ok roleNames
        /\ services.FetchRoles roleNames (auth.access a) None w1
             = (Ok (auth.Checker c), w')
        /\ services.NewUser
             ("remote-" +:+ teleport.RemoteUser.Username u
                +:+ "-" +:+ teleport.RemoteUser.ClusterName u)
             = Ok (auth.User c).
Proof.
  split.
  - intros H. cbn in H. by apply authorizeRemoteUser_Ok in H.
  - intros (ca & roleNames & w1 & Hca & Hmap & Hfetch & Hnew).
    run_authorize. rewrite Hca, Hmap, Hfetch, Hnew. by destruct c.
Qed.

(** X6.  The checker of a remote user does not depend on the user name:
    two claims from the same cluster with the same remote roles, authorized
    from the same state of the stores, get the same checker and leave the
    same state. *)
Theorem remote_checker_ignores_username (a : auth.authorizer)
    (u1 u2 : teleport.RemoteUser.t) (w w1 w2 : services.World)
    (c1 c2 : auth.AuthContext) :
  teleport.RemoteUser.ClusterName u1 = teleport.RemoteUser.ClusterName u2 ->
  teleport.RemoteUser.RemoteRoles u1 = teleport.RemoteUser.RemoteRoles u2 ->
  auth.Authorize (auth.authorizer_impl a) (remote_request u1) w = (Ok c1, w1) ->
  auth.Authorize (auth.authorizer_impl a) (remote_request u2) w = (Ok c2, w2) ->
  auth.Checker c1 = auth.Checker c2 /\ w1 = w2.
Proof.
  intros Hcluster Hroles H1 H2. cbn in H1, H2.
  apply authorizeRemoteUser_Ok in H1 as (ca1 & n1 & s1 & Hca1 & Hm1 & Hf1 & _).
  apply authorizeRemoteUser_Ok in H2 as (ca2 & n2 & s2 & Hca2 & Hm2 & Hf2 & _).
  rewrite Hcluster, Hca2 in Hca1. injection Hca1 as <- <-.
  rewrite Hroles, Hm2 in Hm1. injection Hm1 as <-.
  rewrite Hf2 in Hf1. by injection Hf1 as <- <-.
Qed.

(** X7.  [NewUserAuthorizer] resolves what the authorizer holding the same
    identity and access stores answers a local user claim for that name,
    from the same state: the same state is left, an error comes back
    wrapped once more, and a context becomes the answer of the returned
    authorizer to every later request. *)
Theorem NewUserAuthorizer_fixes_live_answer (a : auth.authorizer)
    (username : string) (w w1 : services.World)
    (r : result auth.AuthContext) :
  auth.Authorize (auth.authorizer_impl a)
    (local_request (teleport.LocalUser.mk username)) w = (r, w1) ->
  auth.NewUserAuthorizer username (auth.identity a) (auth.access a) w
    = (fixed r, w1)
  /\ (forall c, r = Ok c ->
      exists az, fixed r = Ok az
                 /\ forall ctx w', auth.Authorize az ctx w' = (Ok c, w')).
Proof.
  intros H. split.
  - cbn in H. unfold auth.authorizeLocalUser in H. cbn in H.
    unfold auth.NewUserAuthorizer, mbind, auth.M_bind, mret, auth.M_ret.
    rewrite H. by destruct r.
  - intros c ->. by eexists.
Qed.

(** X8.  [NewRoleAuthorizer] resolves what any authorizer answers a builtin
    claim for the role, from any state: an error comes back wrapped once
    more, and a context becomes the answer of the returned authorizer to
    every later request. *)
Theorem NewRoleAuthorizer_fixes_live_answer (a : auth.authorizer)
    (role : teleport.Role) (w w1 : services.World)
    (r : result auth.AuthContext) :
  auth.Authorize (auth.authorizer_impl a) (builtin_request role) w = (r, w1) ->
  auth.NewRoleAuthorizer role = fixed r
  /\ w1 = w
  /\ (forall c, r = Ok c ->
      exists az, fixed r = Ok az
                 /\ forall ctx w', auth.Authorize az ctx w' = (Ok c, w')).
Proof.
  cbn. unfold auth.authorizeBuiltinRole. cbn. intros [= <- <-].
  split; [| split; [reflexivity |]].
  - unfold auth.NewRoleAuthorizer. by destruct (auth.contextForBuiltinRole role).
  - intros c ->. by eexists.
Qed.

(** X9.  The user of a builtin role claim and the user of a remote user
    claim never have the same name. *)
Theorem builtin_and_remote_names_differ (a1 a2 : auth.authorizer)
    (role : teleport.Role) (u : teleport.RemoteUser.t)
    (w1 w1' w2 w2' : services.World) (c1 c2 : auth.AuthContext) :
  NewUser_keeps_name ->
  auth.Authorize (auth.authorizer_impl a1) (builtin_request role) w1
    = (Ok c1, w1') ->
  auth.Authorize (auth.authorizer_impl a2) (remote_request u) w2
    = (Ok c2, w2') ->
  services.GetName (auth.User c1) <> services.GetName (auth.User c2).
Proof.
  intros Hname H1 H2.
  rewrite (remote_user_name a2 u w2 w2' c2 Hname H2).
  cbn in H1. unfold auth.authorizeBuiltinRole in H1. cbn in H1.
  injection H1 as H1 _. apply contextForBuiltinRole_Ok in H1 as [_ Hnew].
  apply Hname in Hnew. rewrite Hnew. rewrite !append_cons. discriminate.
Qed.

(** X10.  The name of a remote user does not tell the user name from the
    cluster name when hyphens occur in them: the user "n-x" of a cluster
    "k" and the user "n" of the cluster "x-k" get the same name. *)
Theorem remote_names_ambiguous (a : auth.authorizer)
    (u1 u2 : teleport.RemoteUser.t) (x : string)
    (w1 w1' w2 w2' : services.World) (c1 c2 : auth.AuthContext) :
  NewUser_keeps_name ->
  teleport.RemoteUser.Username u1
    = teleport.RemoteUser.Username u2 +:+ "-" +:+ x ->
  teleport.RemoteUser.ClusterName u2
    = x +:+ "-" +:+ teleport.RemoteUser.ClusterName u1 ->
  auth.Authorize (auth.authorizer_impl a) (remote_request u1) w1 = (Ok c1, w1') ->
  auth.Authorize (auth.authorizer_impl a) (remote_request u2) w2 = (Ok c2, w2') ->
  services.GetName (auth.User c1) = services.GetName (auth.User c2).
Proof.
  intros Hname Hu Hc H1 H2.
  rewrite (remote_user_name a u1 w1 w1' c1 Hname H1).
  rewrite (remote_user_name a u2 w2 w2' c2 Hname H2).
  rewrite Hu, Hc. f_equal. by rewrite !append_assoc.
Qed.

(** X11.  Among remote users whose user names have no hyphen, the name
    tells the claim: two such claims whose users have the same name have
    the same user name and the same cluster name. *)
Theorem remote_names_injective (a : auth.authorizer)
    (u1 u2 : teleport.RemoteUser.t)
    (w1 w1' w2 w2' : services.World) (c1 c2 : auth.AuthContext) :
  NewUser_keeps_name ->
  has_hyphen (teleport.RemoteUser.Username u1) = false ->
  has_hyphen (teleport.RemoteUser.Username u2) = false ->
  auth.Authorize (auth.authorizer_impl a) (remote_request u1) w1 = (Ok c1, w1') ->
  auth.Authorize (auth.authorizer_impl a) (remote_request u2) w2 = (Ok c2, w2') ->
  services.GetName (auth.User c1) = services.GetName (auth.User c2) ->
  teleport.RemoteUser.Username u1 = teleport.RemoteUser.Username u2
  /\ teleport.RemoteUser.ClusterName u1 = teleport.RemoteUser.ClusterName u2.
Proof.
  intros Hname Hh1 Hh2 H1 H2 E.
  rewrite (remote_user_name a u1 w1 w1' c1 Hname H1) in E.
  rewrite (remote_user_name a u2 w2 w2' c2 Hname H2) in E.
  rewrite !append_cons in E. injection E as E.
  by apply split_at_first_hyphen.
Qed.

End claims.

(** ** The properties on the model cluster *)

Section examples.
#[local] Existing Instances Model.T Model.C Model.S.

(** The model satisfies the three assumptions. *)
Lemma model_roles_distinct : roles_distinct.
Proof. apply (bool_decide_unpack _). vm_compute. reflexivity. Qed.

Lemma model_NewUser_keeps_name : NewUser_keeps_name.
Proof.
  intros n u. cbn. unfold Model.new_user. case_decide; [done |].
  by intros [= <-].
Qed.

Lemma model_stores_read_only : stores_read_only.
Proof.
  repeat split.
  - intros i n w. cbn. unfold Model.get_user. by destruct (_ !! _).
  - intros names acc tr w. cbn. unfold Model.fetch_roles. by destruct (mapM _ _).
  - intros t id lk w. cbn. unfold Model.get_cert_authority. by destruct (_ !! _).
Qed.

(** C1 on the model: the builtin claim for nop. *)
Lemma builtin_role_authorized_nop :
  auth.Authorize the_authorizer (builtin_claim "nop") Model.w0
    = (Ok {| auth.User := Model.mkUser "builtin-nop" [] None;
             auth.Checker :=
               Model.mkChecker [("nop", grants [] [] [])] None |},
       Model.w0)
  /\ services.GetName (Model.mkUser "builtin-nop" [] None) = "builtin-nop".
Proof.
  apply (builtin_role_authorized (T := Model.T) Model.a0 "nop"
           (grants [] [] [])).
  - exact model_roles_distinct.
  - exact model_NewUser_keeps_name.
  - left. split; [done |]. unfold BuiltinPolicyTable.
    do 7 apply list_elem_of_further. apply list_elem_of_here.
  - reflexivity.
  - reflexivity.
Defined.

(** C1 as stated fails on the model: the name of the nop principal has a
    hyphen where the claim has a colon, and the checker of provision-token
    is compiled from the zero specification, not from the table's row with
    the wildcard namespace. *)
Lemma builtin_claim_name_and_provision_token :
  (exists c,
     auth.Authorize the_authorizer (builtin_claim "nop") Model.w0
       = (Ok c, Model.w0)
     /\ services.GetName (auth.User c) = "builtin-nop"
     /\ services.GetName (auth.User c) <> "builtin:nop")
  /\ (teleport.RoleProvisionToken, grants ["*"] [] []) ∈ BuiltinPolicyTable
  /\ auth.GetCheckerForBuiltinRole (T := Model.T) "provision-token"
     = services.FromSpec "provision-token" empty_spec
  /\ auth.GetCheckerForBuiltinRole (T := Model.T) "provision-token"
     <> services.FromSpec "provision-token" (grants ["*"] [] []).
Proof.
  split; [| split; [| split]].
  - eexists. split; [reflexivity |]. split; [reflexivity | discriminate].
  - unfold BuiltinPolicyTable.
    apply list_elem_of_further, list_elem_of_here.
  - reflexivity.
  - discriminate.
Qed.

(** C2 on the model: alice of cluster-b, remote role viewer. *)
Lemma remote_user_principal_name_alice :
  services.GetName (auth.User alice_context)
    = "remote-" +:+ "alice" +:+ "-" +:+ "cluster-b"
  /\ services.GetName (auth.User alice_context) <> "alice".
Proof.
  apply (remote_user_principal_name Model.a0 (alice "cluster-b" ["viewer"])
           Model.w0 Model.w0 alice_context).
  - exact model_NewUser_keeps_name.
  - vm_compute. reflexivity.
Defined.

(** C2 as stated fails on the model: the name has hyphens where the claim
    has colons. *)
Lemma remote_claim_name_has_no_colon :
  auth.Authorize the_authorizer
    (remote_request (alice "cluster-b" ["viewer"])) Model.w0
    = (Ok alice_context, Model.w0)
  /\ services.GetName (auth.User alice_context) = "remote-alice-cluster-b"
  /\ services.GetName (auth.User alice_context) <> "remote:alice:cluster-b".
Proof.
  split; [vm_compute; reflexivity |]. split; [reflexivity | discriminate].
Qed.

(** C3 as stated fails on the model: a context with no identity attached is
    denied with another message than "missing authentication context". *)
Lemma no_identity_in_context_message :
  auth.Authorize the_authorizer (request context.Nil) Model.w0
    = (Err (trace.AccessDenied "unsupported context type <nil>"), Model.w0)
  /\ trace.Unwrap (trace.AccessDenied "unsupported context type <nil>")
     <> trace.AccessDeniedError "missing authentication context".
Proof. split; [reflexivity | discriminate]. Qed.

(** C4 on the model: the role bogus. *)
Lemma unknown_builtin_role_bogus :
  exists err,
    auth.Authorize the_authorizer (builtin_claim "bogus") Model.w0
      = (Err err, Model.w0)
    /\ trace.Unwrap err = trace.NotFoundError ("bogus" +:+ " is not reconginzed")
    /\ trace.IsNotFound err = true.
Proof.
  apply (unknown_builtin_role_not_found (T := Model.T) Model.a0 "bogus").
  apply (bool_decide_unpack _). vm_compute. reflexivity.
Defined.

(** C5 on the model: the mapping of cluster-c is invalid. *)
Lemma mapping_error_denied_cluster_c :
  auth.Authorize the_authorizer
    (remote_request (alice "cluster-c" ["viewer"])) Model.w0
    = (Err (trace.AccessDenied
         "failed to map roles for remote user alice from cluster cluster-c"),
       Model.w0)
  /\ trace.Unwrap (trace.AccessDenied
       "failed to map roles for remote user alice from cluster cluster-c")
     = trace.AccessDeniedError
         "failed to map roles for remote user alice from cluster cluster-c".
Proof.
  apply (mapping_error_denied Model.a0 (alice "cluster-c" ["viewer"])
           [("", "local-viewer")]
           (trace.BadParameter "invalid role mapping") Model.w0 Model.w0).
  - vm_compute. reflexivity.
  - vm_compute. reflexivity.
Defined.

(** C5 as stated fails on the model.  No pair of cluster-b's mapping has
    the remote role "editor": the mapping returns the empty list and no
    error, and [Authorize] goes on to a context whose checker has no role
    at all. *)
Lemma empty_mapping_is_authorized :
  anchor_lookup Model.a0 (alice "cluster-b" ["editor"]) Model.w0
    = (Ok [("viewer", "local-viewer")], Model.w0)
  /\ services.Map (services.CombinedMapping [("viewer", "local-viewer")])
       ["editor"] = Ok []
  /\ auth.Authorize the_authorizer
       (remote_request (alice "cluster-b" ["editor"])) Model.w0
     = (Ok {| auth.User := Model.mkUser "remote-alice-cluster-b" [] None;
              auth.Checker := Model.mkChecker [] None |},
        Model.w0).
Proof. repeat split; vm_compute; reflexivity. Qed.

(** C6 on the model: cluster-z has no anchor, carol is no user. *)
Lemma missing_anchor_or_user_fails_here :
  auth.Authorize the_authorizer
    (remote_request (alice "cluster-z" ["viewer"])) Model.w0
    = (Err (trace.Wrap (trace.NotFound "cluster cluster-z is not found")),
       Model.w0)
  /\ auth.Authorize the_authorizer (local_request (teleport.LocalUser.mk "carol"))
       Model.w0
     = (Err (trace.Wrap (trace.NotFound "user carol is not found")), Model.w0)
  /\ trace.IsNotFound (trace.Wrap (trace.NotFound "user carol is not found"))
     = true.
Proof.
  destruct (missing_anchor_or_user_fails Model.a0) as [Hremote Hlocal].
  split.
  - apply (Hremote (alice "cluster-z" ["viewer"]) _ Model.w0 Model.w0).
    vm_compute. reflexivity.
  - apply (Hlocal (teleport.LocalUser.mk "carol") _ Model.w0 Model.w0).
    + vm_compute. reflexivity.
    + reflexivity.
Defined.

(** C7 on the model: the identity store's error for carol. *)
Lemma collaborator_errors_returned_carol :
  auth.Authorize the_authorizer (local_request (teleport.LocalUser.mk "carol"))
    Model.w0
  = (Err (trace.Wrap (trace.NotFound "user carol is not found")), Model.w0).
Proof.
  destruct (collaborator_errors_returned Model.a0
              (trace.NotFound "user carol is not found")
              Model.w0 Model.w0 Model.w0) as (Hlocal & _).
  apply (Hlocal (teleport.LocalUser.mk "carol")). vm_compute. reflexivity.
Defined.

(** C7 as stated fails on the model.  The mapping of cluster-c is invalid;
    the bad-parameter error it returns is not the cause of the error
    [Authorize] returns. *)
Lemma mapping_error_is_replaced :
  anchor_lookup Model.a0 (alice "cluster-c" ["viewer"]) Model.w0
    = (Ok [("", "local-viewer")], Model.w0)
  /\ services.Map (services.CombinedMapping [("", "local-viewer")]) ["viewer"]
     = Err (trace.BadParameter "invalid role mapping")
  /\ auth.Authorize the_authorizer
       (remote_request (alice "cluster-c" ["viewer"])) Model.w0
     = (Err (trace.AccessDenied
          "failed to map roles for remote user alice from cluster cluster-c"),
        Model.w0)
  /\ trace.Unwrap (trace.AccessDenied
       "failed to map roles for remote user alice from cluster cluster-c")
     <> trace.Unwrap (trace.BadParameter "invalid role mapping").
Proof.
  repeat split; try (vm_compute; reflexivity). discriminate.
Qed.

(** C8 on the model: alice of cluster-b and the local user bob. *)
Lemma checker_compiled_from_here :
  auth.Authorize the_authorizer
    (remote_request (alice "cluster-b" ["viewer"])) Model.w0
    = (Ok alice_context, Model.w0)
  /\ services.FetchRoles ["local-viewer"] (auth.access Model.a0) None Model.w0
     = (Ok (auth.Checker alice_context), Model.w0)
  /\ auth.Authorize the_authorizer
       (local_request (teleport.LocalUser.mk "bob")) Model.w0
     = (Ok bob_context, Model.w0)
  /\ services.FetchRoles ["local-viewer"] (auth.access Model.a0)
       (Some {[ "logins" := ["bob"; "root"] ]}) Model.w0
     = (Ok (auth.Checker bob_context), Model.w0).
Proof.
  destruct (checker_compiled_from Model.a0 Model.w0)
    as (Hremote & Hlocal & _ & _).
  assert (Hviewer :
    services.FetchRoles ["local-viewer"] (auth.access Model.a0) None Model.w0
    = (Ok (auth.Checker alice_context), Model.w0))
    by (vm_compute; reflexivity).
  assert (Hbob :
    services.FetchRoles ["local-viewer"] (auth.access Model.a0)
      (Some {[ "logins" := ["bob"; "root"] ]}) Model.w0
    = (Ok (auth.Checker bob_context), Model.w0))
    by (vm_compute; reflexivity).
  split; [| split; [exact Hviewer | split; [| exact Hbob]]].
  - refine (Hremote (alice "cluster-b" ["viewer"]) _ ["local-viewer"]
              (auth.Checker alice_context) (auth.User alice_context)
              Model.w0 Model.w0 _ _ Hviewer _);
      vm_compute; reflexivity.
  - refine (Hlocal (teleport.LocalUser.mk "bob") (auth.User bob_context)
              (auth.Checker bob_context) Model.w0 Model.w0 _ Hbob).
    vm_compute. reflexivity.
Defined.

(** C9 on the model: two calls for the local user bob. *)
Lemma Authorize_idempotent_bob :
  receiver.Authorize (local_request (teleport.LocalUser.mk "bob")) model_process
    = (Ok bob_context, model_process)
  /\ (receiver.Authorize (local_request (teleport.LocalUser.mk "bob"))
        model_process).1
     = (receiver.Authorize (local_request (teleport.LocalUser.mk "bob"))
          (receiver.Authorize (local_request (teleport.LocalUser.mk "bob"))
             model_process).2).1.
Proof.
  destruct (Authorize_idempotent
              (local_request (teleport.LocalUser.mk "bob")) model_process)
    as (Htwice & _ & Hstate).
  split; [vm_compute; reflexivity |].
  eapply (Htwice _ _ _ _ (surjective_pairing _)); [| apply surjective_pairing].
  by rewrite (Hstate model_stores_read_only).
Defined.

(** C10 on the model: the roles bogus and nop, the users carol and bob. *)
Lemma fixed_authorizers_here :
  (exists err, auth.NewRoleAuthorizer (T := Model.T) "bogus" = Err err
               /\ trace.IsNotFound err = true)
  /\ auth.NewUserAuthorizer "carol" (auth.identity Model.a0)
       (auth.access Model.a0) Model.w0
     = (Err (trace.Wrap (trace.Wrap (trace.NotFound "user carol is not found"))),
        Model.w0)
  /\ (auth.NewRoleAuthorizer (T := Model.T) "nop"
      = Ok (auth.contextAuthorizer_impl {| auth.authContext := nop_context |})
      /\ forall ctx w,
           auth.Authorize
             (auth.contextAuthorizer_impl {| auth.authContext := nop_context |})
             ctx w
           = (Ok nop_context, w))
  /\ (auth.NewUserAuthorizer "bob" (auth.identity Model.a0)
        (auth.access Model.a0) Model.w0
      = (Ok (auth.contextAuthorizer_impl {| auth.authContext := bob_context |}),
         Model.w0)
      /\ forall ctx w',
           auth.Authorize
             (auth.contextAuthorizer_impl {| auth.authContext := bob_context |})
             ctx w'
           = (Ok bob_context, w')).
Proof.
  destruct (fixed_authorizers (T := Model.T) (S := Model.S))
    as (Hunknown & Hlookup & _ & _ & _ & Hrole & Huser).
  split; [| split; [| split]].
  - apply Hunknown. apply (bool_decide_unpack _). vm_compute. reflexivity.
  - apply Hlookup. vm_compute. reflexivity.
  - refine (Hrole "nop" (grants [] [] []) (auth.Checker nop_context)
              (auth.User nop_context) model_roles_distinct _ _ _);
      [| reflexivity | reflexivity].
    left. split; [done |]. unfold BuiltinPolicyTable.
    do 7 apply list_elem_of_further. apply list_elem_of_here.
  - refine (Huser "bob" _ _ Model.w0 Model.w0 Model.w0
              (auth.User bob_context) (auth.Checker bob_context) _ _);
      vm_compute; reflexivity.
Defined.

(** X1 on the model: all three stores given; the identity and trust stores
    missing; the trust store alone missing. *)
Lemma NewAuthorizer_needs_all_three_here :
  auth.NewAuthorizer (S := Model.S) (Some ()) (Some ()) (Some ())
    = Ok the_authorizer
  /\ auth.NewAuthorizer (S := Model.S) (Some ()) None None
     = Err (trace.BadParameter "missing parameter identity")
  /\ auth.NewAuthorizer (S := Model.S) (Some ()) (Some ()) None
     = Err (trace.BadParameter "missing parameter trust").
Proof.
  destruct (NewAuthorizer_needs_all_three (S := Model.S)
              (Some ()) (Some ()) (Some ())) as (_ & _ & _ & _ & _ & Hok).
  destruct (NewAuthorizer_needs_all_three (S := Model.S) (Some ()) None None)
    as (_ & _ & _ & Hidentity & _).
  destruct (NewAuthorizer_needs_all_three (S := Model.S)
              (Some ()) (Some ()) None) as (_ & _ & _ & _ & Htrust & _).
  split; [| split].
  - by apply Hok.
  - by apply Hidentity.
  - by apply Htrust.
Defined.

(** X2 on the model: a pointer to a local user is no identity. *)
Lemma only_identity_claims_authorized_here :
  carries_identity
    (remote_request (alice "cluster-b" ["viewer"])) = true
  /\ exists err,
       auth.Authorize the_authorizer
         (request (context.Other "*teleport.LocalUser")) Model.w0
         = (Err err, Model.w0)
       /\ trace.IsAccessDenied err = true.
Proof.
  destruct (only_identity_claims_authorized Model.a0
              (remote_request (alice "cluster-b" ["viewer"])) Model.w0)
    as [Hok _].
  destruct (only_identity_claims_authorized Model.a0
              (request (context.Other "*teleport.LocalUser")) Model.w0)
    as [_ Hdenied].
  split.
  - apply (Hok alice_context Model.w0). vm_compute. reflexivity.
  - by apply Hdenied.
Defined.

(** X3 on the strict model: provision-token has no namespaces, and
    "builtin-admin" has thirteen characters. *)
Lemma builtin_role_failures_here :
  auth.Authorize (S := Strict.S) (auth.authorizer_impl Strict.a0)
    (builtin_claim "provision-token") Model.w0
    = (Err (trace.Wrap (trace.BadParameter "missing namespaces")), Model.w0)
  /\ auth.Authorize (S := Strict.S) (auth.authorizer_impl Strict.a0)
       (builtin_claim "admin") Model.w0
     = (Err (trace.Wrap (trace.BadParameter "user name is too long")),
        Model.w0).
Proof.
  split.
  - refine (proj1 (builtin_role_failures (T := Model.T) (S := Strict.S)
                     Strict.a0 "provision-token" empty_spec Model.w0
                     model_roles_distinct _) _ _);
      [by right | reflexivity].
  - refine (proj2 (builtin_role_failures (T := Model.T) (S := Strict.S)
                     Strict.a0 "admin" _ Model.w0
                     model_roles_distinct _) _ _ _ _);
      [ left; split; [done |]; unfold BuiltinPolicyTable;
        do 6 apply list_elem_of_further; apply list_elem_of_here
      | reflexivity | reflexivity ].
Defined.

(** X4 on the model: the checker of the node role. *)
Lemma builtin_specifications_shape_node :
  exists spec : services.RoleSpecV3,
    services.FromSpec "node" spec
      = auth.GetCheckerForBuiltinRole (T := Model.T) "node"
    /\ ("node" <> "admin" ->
        services.Options spec = None
        /\ services.Logins (services.Allow spec) = None
        /\ services.NodeLabels (services.Allow spec) = None)
    /\ (services.Namespaces (services.Allow spec) = Some ["*"]
        \/ "node" = "provision-token" \/ "node" = "nop")
    /\ (forall rules kind verbs,
        services.Rules (services.Allow spec) = Some rules ->
        rules !! kind = Some verbs ->
        verbs = ["read"; "write"] \/ verbs = ["read"]).
Proof.
  exact (builtin_specifications_shape (T := Model.T) "node" _ eq_refl).
Defined.

(** X5 on the model: alice of cluster-b, remote role viewer. *)
Lemma remote_user_authorized_alice :
  auth.Authorize the_authorizer
    (remote_request (alice "cluster-b" ["viewer"])) Model.w0
  = (Ok alice_context, Model.w0).
Proof.
  apply (remote_user_authorized_iff Model.a0).
  exists [("viewer", "local-viewer")], ["local-viewer"], Model.w0.
  repeat split; vm_compute; reflexivity.
Defined.

(** X6 on the model: alice and dave of cluster-b, both viewers. *)
Lemma remote_checker_ignores_username_here :
  auth.Checker (viewer_context "remote-alice-cluster-b")
    = auth.Checker (viewer_context "remote-dave-cluster-b")
  /\ Model.w0 = Model.w0.
Proof.
  apply (remote_checker_ignores_username Model.a0
           (remote "alice" "cluster-b" ["viewer"])
           (remote "dave" "cluster-b" ["viewer"]) Model.w0);
    try reflexivity; vm_compute; reflexivity.
Defined.

(** X7 on the model: the local user bob. *)
Lemma NewUserAuthorizer_fixes_live_answer_bob :
  auth.NewUserAuthorizer "bob" () () Model.w0
    = (fixed (Ok bob_context), Model.w0)
  /\ (forall c, Ok bob_context = Ok c ->
      exists az, fixed (Ok bob_context) = Ok az
                 /\ forall ctx w', auth.Authorize az ctx w' = (Ok c, w')).
Proof.
  apply (NewUserAuthorizer_fixes_live_answer Model.a0 "bob" Model.w0).
  vm_compute. reflexivity.
Defined.

(** X8 on the model: the nop role. *)
Lemma NewRoleAuthorizer_fixes_live_answer_nop :
  auth.NewRoleAuthorizer (T := Model.T) "nop" = fixed (Ok nop_context)
  /\ Model.w0 = Model.w0
  /\ (forall c, Ok nop_context = Ok c ->
      exists az, fixed (Ok nop_context) = Ok az
                 /\ forall ctx w', auth.Authorize az ctx w' = (Ok c, w')).
Proof.
  apply (NewRoleAuthorizer_fixes_live_answer (T := Model.T) Model.a0 "nop").
  reflexivity.
Defined.

(** X9 on the model: the nop role and alice of cluster-b. *)
Lemma builtin_and_remote_names_differ_here :
  services.GetName (auth.User nop_context) = "builtin-nop"
  /\ services.GetName (auth.User nop_context)
     <> services.GetName (auth.User alice_context).
Proof.
  split; [reflexivity |].
  apply (builtin_and_remote_names_differ (T := Model.T) Model.a0 Model.a0
           "nop" (alice "cluster-b" ["viewer"])
           Model.w0 Model.w0 Model.w0 Model.w0).
  - exact model_NewUser_keeps_name.
  - reflexivity.
  - vm_compute. reflexivity.
Defined.

(** X10 on the model: alice-x of cluster b and alice of cluster x-b are
    both the user "remote-alice-x-b". *)
Lemma remote_names_ambiguous_here :
  auth.Authorize the_authorizer
    (remote_request (remote "alice-x" "b" ["viewer"])) hyphen_world
    = (Ok (viewer_context "remote-alice-x-b"), hyphen_world)
  /\ auth.Authorize the_authorizer
       (remote_request (remote "alice" "x-b" ["viewer"])) hyphen_world
     = (Ok (viewer_context "remote-alice-x-b"), hyphen_world)
  /\ services.GetName (auth.User (viewer_context "remote-alice-x-b"))
     = services.GetName (auth.User (viewer_context "remote-alice-x-b")).
Proof.
  assert (H1 : auth.Authorize the_authorizer
                 (remote_request (remote "alice-x" "b" ["viewer"])) hyphen_world
               = (Ok (viewer_context "remote-alice-x-b"), hyphen_world))
    by (vm_compute; reflexivity).
  assert (H2 : auth.Authorize the_authorizer
                 (remote_request (remote "alice" "x-b" ["viewer"])) hyphen_world
               = (Ok (viewer_context "remote-alice-x-b"), hyphen_world))
    by (vm_compute; reflexivity).
  split; [exact H1 | split; [exact H2 |]].
  exact (remote_names_ambiguous Model.a0
           (remote "alice-x" "b" ["viewer"]) (remote "alice" "x-b" ["viewer"])
           "x" hyphen_world hyphen_world hyphen_world hyphen_world _ _
           model_NewUser_keeps_name eq_refl eq_refl H1 H2).
Defined.

(** X11 on the model: alice of cluster-b as a viewer and with a remote role
    that maps to nothing. *)
Lemma remote_names_injective_here :
  teleport.RemoteUser.Username (remote "alice" "cluster-b" ["viewer"])
    = teleport.RemoteUser.Username (remote "alice" "cluster-b" ["editor"])
  /\ teleport.RemoteUser.ClusterName (remote "alice" "cluster-b" ["viewer"])
     = teleport.RemoteUser.ClusterName (remote "alice" "cluster-b" ["editor"]).
Proof.
  apply (remote_names_injective Model.a0
           (remote "alice" "cluster-b" ["viewer"])
           (remote "alice" "cluster-b" ["editor"])
           Model.w0 Model.w0 Model.w0 Model.w0
           alice_context (roleless_context "remote-alice-cluster-b")).
  - exact model_NewUser_keeps_name.
  - reflexivity.
  - reflexivity.
  - vm_compute. reflexivity.
  - vm_compute. reflexivity.
  - reflexivity.
Defined.

End examples.
